(** * clientconfig: layered resolution of a cloud entry and of its
      authentication options

    A shallow embedding of the Go package [clientconfig]
    (GetCloudFromYAML, AuthOptions, determineIdentityAPI, v2auth, v3auth,
    setDomainIfNeeded and the default YAML loaders), with the properties of
    the configuration resolver stated and proved over it.

    Conventions of the embedding.
    - A Go [string] is a [string]; the zero value is the empty string.
    - A pointer that may be nil is an [option]; [None] is nil.
    - A Go [map[string]Cloud] is an [option (gmap string Cloud.t)]: [None]
      is the nil map, which reads like the empty map.
    - A function returning [(T, error)] returns a [result T]; dereferencing
      a nil pointer is the outcome [Panic].
    - The process environment, the file system, the YAML decoder and the
      helper [mergeClouds] are outside the modelled source file: they are
      parameters of the sections below. *)

From stdpp Require Import gmap strings list fin_maps.

Open Scope string_scope.

(** ** Errors and results *)

(** The errors the package produces or passes on. [ErrorfW msg e] is
    [fmt.Errorf(msg + ": %w", e)], which keeps [e] reachable for [errors.Is]. *)
Inductive error : Type :=
  | ErrNotExist                              (* os.ErrNotExist *)
  | ErrOther (msg : string)                  (* any other error of a collaborator *)
  | Errorf (msg : string)                    (* fmt.Errorf without a wrapped error *)
  | ErrorfW (msg : string) (cause : error)   (* fmt.Errorf(".. %w", cause) *)
  | ErrMissingInput (Argument : string).     (* gophercloud.ErrMissingInput *)

(** [errors.Is(err, os.ErrNotExist)]: looks through the wrapping. *)
Fixpoint isNotExist (e : error) : bool :=
  match e with
  | ErrNotExist => true
  | ErrorfW _ cause => isNotExist cause
  | _ => false
  end.

Inductive result (A : Type) : Type :=
  | Ok (a : A)
  | Err (e : error)
  | Panic.
Arguments Ok {A} a.
Arguments Err {A} e.
Arguments Panic {A}.

#[global] Instance result_ret : MRet result := λ A a, Ok a.
#[global] Instance result_bind : MBind result := λ A B f r,
  match r with
  | Ok a => f a
  | Err e => Err e
  | Panic => Panic
  end.

(** [v, err := f(); if err != nil { return nil, fmt.Errorf(msg + ": %w", err) }] *)
Definition wrapErr {A} (msg : string) (r : result A) : result A :=
  match r with
  | Ok a => Ok a
  | Err e => Err (ErrorfW msg e)
  | Panic => Panic
  end.

(** [strings.Contains(s, substr)] *)
Definition strings_Contains (s substr : string) : bool :=
  match String.index 0 substr s with
  | Some _ => true
  | None => false
  end.

(** ** The data model *)

(** [type AuthType string] and its constants. *)
Definition AuthType : Type := string.
Definition AuthPassword : AuthType := "password".
Definition AuthToken : AuthType := "token".
Definition AuthV2Password : AuthType := "v2password".
Definition AuthV2Token : AuthType := "v2token".
Definition AuthV3Password : AuthType := "v3password".
Definition AuthV3Token : AuthType := "v3token".
Definition AuthV3ApplicationCredential : AuthType := "v3applicationcredential".

Module AuthInfo.

(** Modelled from the spec: the struct [AuthInfo], whose declaration is not
    in the modelled source file. Its fields are the ones the spec lists
    (URL, token, username/password, user and project identifiers, the
    domain identifiers, the application-credential triple, the
    system-scope flag, the reauth flag), under the names by which
    [v2auth], [v3auth] and [setDomainIfNeeded] read and write them. *)
Record t : Type := mk {
  AuthURL : string;
  Token : string;
  Username : string;
  UserID : string;
  Password : string;
  ApplicationCredentialID : string;
  ApplicationCredentialName : string;
  ApplicationCredentialSecret : string;
  SystemScope : string;
  ProjectName : string;
  ProjectID : string;
  UserDomainName : string;
  UserDomainID : string;
  ProjectDomainName : string;
  ProjectDomainID : string;
  DomainName : string;
  DomainID : string;
  DefaultDomain : string;
  AllowReauth : bool
}.

(** [new(AuthInfo)] *)
Definition zero : t := mk "" "" "" "" "" "" "" "" "" "" "" "" "" "" "" "" "" "" false.

(** The string-valued fields, to read and assign them by name. *)
Inductive field : Type :=
  | fAuthURL | fToken | fUsername | fUserID | fPassword
  | fApplicationCredentialID | fApplicationCredentialName
  | fApplicationCredentialSecret | fSystemScope | fProjectName | fProjectID
  | fUserDomainName | fUserDomainID | fProjectDomainName | fProjectDomainID
  | fDomainName | fDomainID | fDefaultDomain.

#[global] Instance field_eq_dec : EqDecision field.
Proof. solve_decision. Defined.

Definition get (f : field) (a : t) : string :=
  match f with
  | fAuthURL => AuthURL a
  | fToken => Token a
  | fUsername => Username a
  | fUserID => UserID a
  | fPassword => Password a
  | fApplicationCredentialID => ApplicationCredentialID a
  | fApplicationCredentialName => ApplicationCredentialName a
  | fApplicationCredentialSecret => ApplicationCredentialSecret a
  | fSystemScope => SystemScope a
  | fProjectName => ProjectName a
  | fProjectID => ProjectID a
  | fUserDomainName => UserDomainName a
  | fUserDomainID => UserDomainID a
  | fProjectDomainName => ProjectDomainName a
  | fProjectDomainID => ProjectDomainID a
  | fDomainName => DomainName a
  | fDomainID => DomainID a
  | fDefaultDomain => DefaultDomain a
  end.

(** [a.F = v] for the field [F] named by [f]. *)
Definition set (f : field) (v : string) (a : t) : t :=
  let upd (g : field) (old : string) : string :=
    if decide (f = g) then v else old in
  {| AuthURL := upd fAuthURL (AuthURL a);
     Token := upd fToken (Token a);
     Username := upd fUsername (Username a);
     UserID := upd fUserID (UserID a);
     Password := upd fPassword (Password a);
     ApplicationCredentialID :=
       upd fApplicationCredentialID (ApplicationCredentialID a);
     ApplicationCredentialName :=
       upd fApplicationCredentialName (ApplicationCredentialName a);
     ApplicationCredentialSecret :=
       upd fApplicationCredentialSecret (ApplicationCredentialSecret a);
     SystemScope := upd fSystemScope (SystemScope a);
     ProjectName := upd fProjectName (ProjectName a);
     ProjectID := upd fProjectID (ProjectID a);
     UserDomainName := upd fUserDomainName (UserDomainName a);
     UserDomainID := upd fUserDomainID (UserDomainID a);
     ProjectDomainName := upd fProjectDomainName (ProjectDomainName a);
     ProjectDomainID := upd fProjectDomainID (ProjectDomainID a);
     DomainName := upd fDomainName (DomainName a);
     DomainID := upd fDomainID (DomainID a);
     DefaultDomain := upd fDefaultDomain (DefaultDomain a);
     AllowReauth := AllowReauth a |}.

End AuthInfo.

Module Cloud.

(** Modelled from the spec: the structs [Cloud] and [Region], whose
    declarations are not in the modelled source file. [Cloud] has the
    attributes the spec lists (name, profile reference, region list,
    endpoint-type/interface, TLS verification flag, CA and client
    certificate paths, identity and volume API version overrides, an
    embedded AuthInfo) under the names by which the source reads them;
    a [Region] is a name with a nested value set that is handed to
    [mergeClouds]. A nil slice and an empty slice are both the list [[]]. *)
Inductive t : Type := mk {
  Cloud : string;
  Profile : string;
  AuthInfo : option AuthInfo.t;
  AuthType : AuthType;
  RegionName : string;
  Regions : list Region;
  EndpointType : string;
  Interface : string;
  IdentityAPIVersion : string;
  VolumeAPIVersion : string;
  Verify : option bool;
  CACertFile : string;
  ClientCertFile : string;
  ClientKeyFile : string
}
with Region : Type := mkRegion {
  Name : string;
  Values : t
}.

(** [Cloud{}], also [*new(Cloud)] *)
Definition zero : t := mk "" "" None "" "" [] "" "" "" "" None "" "" "".

(** [reflect.DeepEqual((Cloud{}), c)] *)
Definition isZero (c : t) : bool :=
  match c with
  | mk "" "" None "" "" [] "" "" "" "" None "" "" "" => true
  | _ => false
  end.

(** The string-valued fields, for statements that range over them. *)
Inductive field : Type :=
  | fCloud | fProfile | fAuthType | fRegionName | fEndpointType | fInterface
  | fIdentityAPIVersion | fVolumeAPIVersion | fCACertFile | fClientCertFile
  | fClientKeyFile.

Definition get (f : field) (c : t) : string :=
  match f with
  | fCloud => Cloud c
  | fProfile => Profile c
  | fAuthType => AuthType c
  | fRegionName => RegionName c
  | fEndpointType => EndpointType c
  | fInterface => Interface c
  | fIdentityAPIVersion => IdentityAPIVersion c
  | fVolumeAPIVersion => VolumeAPIVersion c
  | fCACertFile => CACertFile c
  | fClientCertFile => ClientCertFile c
  | fClientKeyFile => ClientKeyFile c
  end.

(** [c.AuthInfo = a] *)
Definition setAuthInfo (a : option AuthInfo.t) (c : t) : t :=
  mk (Cloud c) (Profile c) a (AuthType c) (RegionName c) (Regions c)
     (EndpointType c) (Interface c) (IdentityAPIVersion c)
     (VolumeAPIVersion c) (Verify c) (CACertFile c) (ClientCertFile c)
     (ClientKeyFile c).

(** [c.Verify = v] *)
Definition setVerify (v : option bool) (c : t) : t :=
  mk (Cloud c) (Profile c) (AuthInfo c) (AuthType c) (RegionName c)
     (Regions c) (EndpointType c) (Interface c) (IdentityAPIVersion c)
     (VolumeAPIVersion c) v (CACertFile c) (ClientCertFile c)
     (ClientKeyFile c).

(** [c.EndpointType = s] *)
Definition setEndpointType (s : string) (c : t) : t :=
  mk (Cloud c) (Profile c) (AuthInfo c) (AuthType c) (RegionName c)
     (Regions c) s (Interface c) (IdentityAPIVersion c)
     (VolumeAPIVersion c) (Verify c) (CACertFile c) (ClientCertFile c)
     (ClientKeyFile c).

(** [c.Interface = s] *)
Definition setInterface (s : string) (c : t) : t :=
  mk (Cloud c) (Profile c) (AuthInfo c) (AuthType c) (RegionName c)
     (Regions c) (EndpointType c) s (IdentityAPIVersion c)
     (VolumeAPIVersion c) (Verify c) (CACertFile c) (ClientCertFile c)
     (ClientKeyFile c).

End Cloud.

(** A [map[string]Cloud] as the loaders return it; [None] is the nil map. *)
Abbreviation CloudMap := (option (gmap string Cloud.t)).

(** [v, ok := m[k]]: a missing key (or a nil map) gives the zero value. *)
Definition mapIndex (m : CloudMap) (k : string) : Cloud.t * bool :=
  match m ≫= (λ m', m' !! k) with
  | Some v => (v, true)
  | None => (Cloud.zero, false)
  end.

(** [len(m)] *)
Definition len (m : CloudMap) : nat :=
  match m with
  | Some m' => size m'
  | None => 0
  end.

(** [for _, v := range m { cloud = &v }]: every iteration overwrites
    [cloud]; a nil map has no iteration. *)
Definition rangeAssign (m : CloudMap) (cloud : option Cloud.t) : option Cloud.t :=
  match m with
  | Some m' => foldl (λ _ kv, Some kv.2) cloud (map_to_list m')
  | None => cloud
  end.

Module YAMLOptsBuilder.

(** The interface [YAMLOptsBuilder]. Each method takes no argument and
    is called at most once in a resolution, so an implementation is the
    triple of what its methods return. *)
Record t : Type := mk {
  LoadCloudsYAML : result CloudMap;
  LoadSecureCloudsYAML : result CloudMap;
  LoadPublicCloudsYAML : result CloudMap
}.

End YAMLOptsBuilder.

Module ClientOpts.

(** [type ClientOpts struct]. The field [HTTPClient] is left out: none of
    the functions below reads it. *)
Record t : Type := mk {
  Cloud : string;
  EnvPrefix : string;
  AuthType : AuthType;
  AuthInfo : option AuthInfo.t;
  RegionName : string;
  EndpointType : string;
  YAMLOpts : option YAMLOptsBuilder.t
}.

(** [new(ClientOpts)] *)
Definition zero : t := mk "" "" "" None "" "" None.

(** [opts.YAMLOpts = y] *)
Definition setYAMLOpts (y : option YAMLOptsBuilder.t) (opts : t) : t :=
  mk (Cloud opts) (EnvPrefix opts) (AuthType opts) (AuthInfo opts)
     (RegionName opts) (EndpointType opts) y.

End ClientOpts.

Module gophercloud.

(** The SDK's [AuthScope] and [AuthOptions], restricted to the fields
    [v2auth] and [v3auth] assign; every other field keeps its zero value. *)
Module AuthScope.
Record t : Type := mk {
  ProjectID : string;
  ProjectName : string;
  DomainID : string;
  DomainName : string;
  System : bool
}.
(** [new(gophercloud.AuthScope)] *)
Definition zero : t := mk "" "" "" "" false.
End AuthScope.

Module AuthOptions.
Record t : Type := mk {
  IdentityEndpoint : string;
  Username : string;
  UserID : string;
  Password : string;
  DomainID : string;
  DomainName : string;
  TenantID : string;
  TenantName : string;
  AllowReauth : bool;
  TokenID : string;
  Scope : option AuthScope.t;
  ApplicationCredentialID : string;
  ApplicationCredentialName : string;
  ApplicationCredentialSecret : string
}.
End AuthOptions.

End gophercloud.

(** ** The collaborators of the package *)

Module World.

(** What a call reads from outside the modelled source file:
    - [getenv]: [env.Getenv], the process environment (an unset variable
      reads as the empty string);
    - [FindAndRead*]: the content of the three YAML files as the search-path
      lookup returns it (the file name it also returns is ignored by every
      caller);
    - [yamlUnmarshalClouds], [yamlUnmarshalPublicClouds]: [yaml.Unmarshal]
      into a [Clouds] or a [PublicClouds] value, followed by the read of its
      field [Clouds];
    - [mergeClouds]: the package's merge helper, called with [*Cloud] and
      [Cloud] arguments (a [Cloud] value is passed as [Some]). *)
Record t : Type := mk {
  getenv : string → string;
  FindAndReadCloudsYAML : result string;
  FindAndReadSecureCloudsYAML : result string;
  FindAndReadPublicCloudsYAML : result string;
  yamlUnmarshalClouds : string → result CloudMap;
  yamlUnmarshalPublicClouds : string → result CloudMap;
  mergeClouds : option Cloud.t → option Cloud.t → result Cloud.t
}.

End World.

(** Modelled from the spec: the helper [defaultIfEmpty], which is not in the
    modelled source file. The spec reads its one call as "explicit profile
    field, or falls back to the cloud field": the first argument unless it
    is empty, then the second. *)
Definition defaultIfEmpty (value defaultValue : string) : string :=
  if decide (value = "") then defaultValue else value.

(** [reflect.DeepEqual(cloud, secureCloud)] as GetCloudFromYAML calls it,
    with [cloud] of type [*Cloud] and [secureCloud] of type [Cloud]: values
    of distinct types are never deeply equal. *)
Definition DeepEqual_ptr_value (cloud : option Cloud.t) (secureCloud : Cloud.t) : bool :=
  false.

(** [envPrefix := "OS_"; if opts != nil && opts.EnvPrefix != "" { envPrefix = opts.EnvPrefix }] *)
Definition envPrefixOf (opts : option ClientOpts.t) : string :=
  match opts with
  | Some o => if decide (ClientOpts.EnvPrefix o ≠ "") then ClientOpts.EnvPrefix o else "OS_"
  | None => "OS_"
  end.

(** isProjectScoped determines if an auth struct is project scoped. *)
Definition isProjectScoped (authInfo : AuthInfo.t) : bool :=
  if decide (AuthInfo.ProjectID authInfo = "" ∧ AuthInfo.ProjectName authInfo = "")
  then false else true.

(** isApplicationCredential determines if an application credential is used. *)
Definition isApplicationCredential (authInfo : AuthInfo.t) : bool :=
  if decide (AuthInfo.ApplicationCredentialID authInfo = ""
             ∧ AuthInfo.ApplicationCredentialName authInfo = ""
             ∧ AuthInfo.ApplicationCredentialSecret authInfo = "")
  then false else true.

(** setDomainIfNeeded, on the [AuthInfo] its argument points to: it is
    only called with [cloud.AuthInfo] non-nil, reads and writes nothing else
    of the cloud, and returns the pointer it was given. *)
Definition setDomainIfNeeded (a : AuthInfo.t) : AuthInfo.t :=
  let a :=
    if decide (AuthInfo.DomainID a ≠ "") then
      let a := if decide (AuthInfo.UserDomainID a = "")
               then AuthInfo.set AuthInfo.fUserDomainID (AuthInfo.DomainID a) a else a in
      let a := if decide (AuthInfo.ProjectDomainID a = "")
               then AuthInfo.set AuthInfo.fProjectDomainID (AuthInfo.DomainID a) a else a in
      AuthInfo.set AuthInfo.fDomainID "" a
    else a in
  let a :=
    if decide (AuthInfo.DomainName a ≠ "") then
      let a := if decide (AuthInfo.UserDomainName a = "")
               then AuthInfo.set AuthInfo.fUserDomainName (AuthInfo.DomainName a) a else a in
      let a := if decide (AuthInfo.ProjectDomainName a = "")
               then AuthInfo.set AuthInfo.fProjectDomainName (AuthInfo.DomainName a) a else a in
      AuthInfo.set AuthInfo.fDomainName "" a
    else a in
  if decide (AuthInfo.DefaultDomain a ≠ "") then
    let a := if decide (AuthInfo.UserDomainName a = "" ∧ AuthInfo.UserDomainID a = "")
             then AuthInfo.set AuthInfo.fUserDomainID (AuthInfo.DefaultDomain a) a else a in
    let a := if decide (AuthInfo.ProjectDomainName a = "" ∧ AuthInfo.ProjectDomainID a = "")
             then AuthInfo.set AuthInfo.fProjectDomainID (AuthInfo.DefaultDomain a) a else a in
    a
  else a.

Section Resolver.

Context (w : World.t).

Local Abbreviation getenv := (World.getenv w).
Local Abbreviation mergeClouds := (World.mergeClouds w).

(** *** The default loaders *)

(** LoadCloudsYAML will load a clouds.yaml file and return the full config. *)
Definition LoadCloudsYAML : result CloudMap :=
  match World.FindAndReadCloudsYAML w with
  | Ok content =>
      wrapErr "failed to unmarshal yaml" (World.yamlUnmarshalClouds w content)
  | Err err => Err err
  | Panic => Panic
  end.

(** LoadSecureCloudsYAML will load a secure.yaml file and return the full
    config. When the read fails with a not-exist error it returns the field
    of the fresh [var secureClouds Clouds], a nil map, and no error. *)
Definition LoadSecureCloudsYAML : result CloudMap :=
  match World.FindAndReadSecureCloudsYAML w with
  | Ok content =>
      wrapErr "failed to unmarshal yaml" (World.yamlUnmarshalClouds w content)
  | Err err => if isNotExist err then Ok None else Err err
  | Panic => Panic
  end.

(** LoadPublicCloudsYAML will load a public-clouds.yaml file and return the
    full config; the same shape as LoadSecureCloudsYAML. *)
Definition LoadPublicCloudsYAML : result CloudMap :=
  match World.FindAndReadPublicCloudsYAML w with
  | Ok content =>
      wrapErr "failed to unmarshal yaml" (World.yamlUnmarshalPublicClouds w content)
  | Err err => if isNotExist err then Ok None else Err err
  | Panic => Panic
  end.

(** [new(YAMLOpts)]: the three methods call the three functions above. *)
Definition YAMLOpts : YAMLOptsBuilder.t :=
  {| YAMLOptsBuilder.LoadCloudsYAML := LoadCloudsYAML;
     YAMLOptsBuilder.LoadSecureCloudsYAML := LoadSecureCloudsYAML;
     YAMLOptsBuilder.LoadPublicCloudsYAML := LoadPublicCloudsYAML |}.

(** [if opts.YAMLOpts == nil { opts.YAMLOpts = new(YAMLOpts) }; yamlOpts := opts.YAMLOpts] *)
Definition yamlOptsOf (opts : ClientOpts.t) : YAMLOptsBuilder.t :=
  match ClientOpts.YAMLOpts opts with
  | Some y => y
  | None => YAMLOpts
  end.

(** *** GetCloudFromYAML *)

(** The block that determines which cloud to use; GetCloudFromYAML
    (lines 204-219) and AuthOptions (lines 354-371) both contain it. *)
Definition cloudNameOf (opts : ClientOpts.t) : string :=
  if decide (ClientOpts.Cloud opts ≠ "") then ClientOpts.Cloud opts
  else
    let envPrefix := envPrefixOf (Some opts) in
    let v := getenv (envPrefix ++ "CLOUD") in
    if decide (v ≠ "") then v else "".

(** Lines 221-236: the entry of the primary document, by name or, without
    a name, as the only entry. *)
Definition GetCloudFromYAML_primary (clouds : CloudMap) (cloudName : string)
    : result (option Cloud.t) :=
  cloud ← (if decide (cloudName ≠ "") then
             let '(v, ok) := mapIndex clouds cloudName in
             if negb ok then
               Err (Errorf ("cloud " ++ cloudName ++ " does not exist in clouds.yaml"))
             else Ok (Some v)
           else Ok None);
  if decide (cloudName = "" ∧ len clouds = 1)
  then Ok (rangeAssign clouds cloud)
  else Ok cloud.

(** Lines 238-260: a profile points to a public cloud entry. *)
Definition GetCloudFromYAML_profile (yamlOpts : YAMLOptsBuilder.t)
    (cloud : option Cloud.t) : result (option Cloud.t) :=
  match cloud with
  | Some c =>
      let profileName := defaultIfEmpty (Cloud.Profile c) (Cloud.Cloud c) in
      if decide (profileName ≠ "") then
        publicClouds ← wrapErr "unable to load clouds-public.yaml"
                         (YAMLOptsBuilder.LoadPublicCloudsYAML yamlOpts);
        let '(publicCloud, ok) := mapIndex publicClouds profileName in
        if negb ok then
          Err (Errorf ("cloud " ++ profileName ++ " does not exist in clouds-public.yaml"))
        else
          match mergeClouds (Some c) (Some publicCloud) with
          | Ok merged => Ok (Some merged)
          | Err _ =>
              Err (Errorf ("Could not merge information from clouds.yaml and clouds-public.yaml for cloud "
                           ++ profileName))
          | Panic => Panic
          end
      else Ok cloud
  | None => Ok cloud
  end.

(** Lines 269-296: the secure clouds file, when it gave a map. *)
Definition GetCloudFromYAML_secure (secureClouds : CloudMap) (cloudName : string)
    (cloud : option Cloud.t) : result (option Cloud.t) :=
  match secureClouds with
  | Some _ =>
      let cloud :=
        if decide (cloud = None ∧ cloudName = "" ∧ len secureClouds = 1)
        then rangeAssign secureClouds cloud else cloud in
      let '(secureCloud, ok) := mapIndex secureClouds cloudName in
      if negb ok && bool_decide (cloud = None) then
        Err (Errorf ("Could not find cloud " ++ cloudName))
      else if negb (Cloud.isZero secureCloud)
              && negb (DeepEqual_ptr_value cloud secureCloud) then
        match mergeClouds (Some secureCloud) cloud with
        | Ok merged => Ok (Some merged)
        | Err _ =>
            Err (Errorf "unable to merge information from clouds.yaml and secure.yaml")
        | Panic => Panic
        end
      else Ok cloud
  | None => Ok cloud
  end.

(** Lines 310-318: the first region named [regionName] has its values
    merged with the cloud, and the loop stops there. *)
Fixpoint GetCloudFromYAML_regions (regionName : string) (regions : list Cloud.Region)
    (cloud : Cloud.t) : result Cloud.t :=
  match regions with
  | [] => Ok cloud
  | v :: rest =>
      if decide (regionName = Cloud.Name v)
      then mergeClouds (Some (Cloud.Values v)) (Some cloud)
      else GetCloudFromYAML_regions regionName rest cloud
  end.

(** Lines 324-333: standardize on EndpointType. *)
Definition GetCloudFromYAML_endpoint (cloud : Cloud.t) : Cloud.t :=
  let cloud :=
    if decide (Cloud.Interface cloud ≠ "" ∧ Cloud.EndpointType cloud = "")
    then Cloud.setEndpointType (Cloud.Interface cloud) cloud else cloud in
  Cloud.setInterface "" cloud.

(** Lines 298-318: the last nil check, the default of Verify and the
    per-region overrides. A region merge that fails leaves [cloud] nil with
    [err] set, and the next statement reads [cloud.Interface]. *)
Definition GetCloudFromYAML_final (opts : ClientOpts.t) (cloudName : string)
    (cloud : option Cloud.t) : result Cloud.t :=
  match cloud with
  | None => Err (Errorf ("Could not find cloud " ++ cloudName))
  | Some cloud =>
      let cloud :=
        match Cloud.Verify cloud with
        | None => Cloud.setVerify (Some true) cloud
        | Some _ => cloud
        end in
      if decide (ClientOpts.RegionName opts ≠ "") then
        match GetCloudFromYAML_regions (ClientOpts.RegionName opts)
                (Cloud.Regions cloud) cloud with
        | Ok cloud => Ok cloud
        | Err _ => Panic
        | Panic => Panic
        end
      else Ok cloud
  end.

(** Lines 238-318: what follows the choice of the primary entry. *)
Definition GetCloudFromYAML_rest (opts : ClientOpts.t) (cloudName : string)
    (cloud : option Cloud.t) : result Cloud.t :=
  let yamlOpts := yamlOptsOf opts in
  cloud ← GetCloudFromYAML_profile yamlOpts cloud;
  secureClouds ← wrapErr "unable to load secure.yaml"
                   (YAMLOptsBuilder.LoadSecureCloudsYAML yamlOpts);
  cloud ← GetCloudFromYAML_secure secureClouds cloudName cloud;
  GetCloudFromYAML_final opts cloudName cloud.

(** Lines 188-318: everything up to the endpoint-type block. *)
Definition GetCloudFromYAML_resolve (opts : ClientOpts.t) : result Cloud.t :=
  let yamlOpts := yamlOptsOf opts in
  clouds ← wrapErr "unable to load clouds.yaml" (YAMLOptsBuilder.LoadCloudsYAML yamlOpts);
  let cloudName := cloudNameOf opts in
  cloud ← GetCloudFromYAML_primary clouds cloudName;
  GetCloudFromYAML_rest opts cloudName cloud.

(** GetCloudFromYAML will return a cloud entry from a clouds.yaml file. *)
Definition GetCloudFromYAML (opts : option ClientOpts.t) : result Cloud.t :=
  let opts := default ClientOpts.zero opts in
  cloud ← GetCloudFromYAML_resolve opts;
  Ok (GetCloudFromYAML_endpoint cloud).

End Resolver.

Section Authentication.

Context (w : World.t).

Local Abbreviation getenv := (World.getenv w).

(** *** Environment-variable fallback *)

(** The pattern of v2auth and v3auth for a field [F] and variables
    [k1 .. kn]:
    [if cloud.AuthInfo.F == "" {
       if v := env.Getenv(envPrefix + k1); v != "" { cloud.AuthInfo.F = v }
       ..
       if v := env.Getenv(envPrefix + kn); v != "" { cloud.AuthInfo.F = v } }] *)
Definition fromEnv (envPrefix : string) (f : AuthInfo.field) (keys : list string)
    (a : AuthInfo.t) : AuthInfo.t :=
  if decide (AuthInfo.get f a = "") then
    foldl (λ a k, let v := getenv (envPrefix ++ k) in
                  if decide (v ≠ "") then AuthInfo.set f v a else a) a keys
  else a.

(** v2auth, lines 467-513. *)
Definition v2auth_env (envPrefix : string) (a : AuthInfo.t) : AuthInfo.t :=
  let a := fromEnv envPrefix AuthInfo.fAuthURL ["AUTH_URL"] a in
  let a := fromEnv envPrefix AuthInfo.fToken ["TOKEN"; "AUTH_TOKEN"] a in
  let a := fromEnv envPrefix AuthInfo.fUsername ["USERNAME"] a in
  let a := fromEnv envPrefix AuthInfo.fPassword ["PASSWORD"] a in
  let a := fromEnv envPrefix AuthInfo.fProjectID ["TENANT_ID"; "PROJECT_ID"] a in
  let a := fromEnv envPrefix AuthInfo.fProjectName ["TENANT_NAME"; "PROJECT_NAME"] a in
  a.

(** v3auth, lines 536-654. *)
Definition v3auth_env (envPrefix : string) (a : AuthInfo.t) : AuthInfo.t :=
  let a := fromEnv envPrefix AuthInfo.fAuthURL ["AUTH_URL"] a in
  let a := fromEnv envPrefix AuthInfo.fToken ["TOKEN"; "AUTH_TOKEN"] a in
  let a := fromEnv envPrefix AuthInfo.fUsername ["USERNAME"] a in
  let a := fromEnv envPrefix AuthInfo.fUserID ["USER_ID"] a in
  let a := fromEnv envPrefix AuthInfo.fPassword ["PASSWORD"] a in
  let a := fromEnv envPrefix AuthInfo.fProjectID ["TENANT_ID"; "PROJECT_ID"] a in
  let a := fromEnv envPrefix AuthInfo.fProjectName ["TENANT_NAME"; "PROJECT_NAME"] a in
  let a := fromEnv envPrefix AuthInfo.fDomainID ["DOMAIN_ID"] a in
  let a := fromEnv envPrefix AuthInfo.fDomainName ["DOMAIN_NAME"] a in
  let a := fromEnv envPrefix AuthInfo.fDefaultDomain ["DEFAULT_DOMAIN"] a in
  let a := fromEnv envPrefix AuthInfo.fProjectDomainID ["PROJECT_DOMAIN_ID"] a in
  let a := fromEnv envPrefix AuthInfo.fProjectDomainName ["PROJECT_DOMAIN_NAME"] a in
  let a := fromEnv envPrefix AuthInfo.fUserDomainID ["USER_DOMAIN_ID"] a in
  let a := fromEnv envPrefix AuthInfo.fUserDomainName ["USER_DOMAIN_NAME"] a in
  let a := fromEnv envPrefix AuthInfo.fApplicationCredentialID
             ["APPLICATION_CREDENTIAL_ID"] a in
  let a := fromEnv envPrefix AuthInfo.fApplicationCredentialName
             ["APPLICATION_CREDENTIAL_NAME"] a in
  let a := fromEnv envPrefix AuthInfo.fApplicationCredentialSecret
             ["APPLICATION_CREDENTIAL_SECRET"] a in
  let a := fromEnv envPrefix AuthInfo.fSystemScope ["SYSTEM_SCOPE"] a in
  a.

(** *** determineIdentityAPI *)

Definition determineIdentityAPI (cloud : Cloud.t) (opts : option ClientOpts.t) : string :=
  let identityAPI := "" in
  let identityAPI :=
    if decide (Cloud.IdentityAPIVersion cloud ≠ "")
    then Cloud.IdentityAPIVersion cloud else identityAPI in
  let envPrefix := envPrefixOf opts in
  let v := getenv (envPrefix ++ "IDENTITY_API_VERSION") in
  let identityAPI := if decide (v ≠ "") then v else identityAPI in
  let identityAPI :=
    if decide (identityAPI = "") then
      match Cloud.AuthInfo cloud with
      | Some authInfo =>
          let identityAPI :=
            if strings_Contains (AuthInfo.AuthURL authInfo) "v2.0"
            then "2.0" else identityAPI in
          let identityAPI :=
            if strings_Contains (AuthInfo.AuthURL authInfo) "v3"
            then "3" else identityAPI in
          identityAPI
      | None => identityAPI
      end
    else identityAPI in
  let identityAPI :=
    if decide (identityAPI = "") then
      if decide (Cloud.AuthType cloud = AuthV2Password) then "2.0"
      else if decide (Cloud.AuthType cloud = AuthV2Token) then "2.0"
      else if decide (Cloud.AuthType cloud = AuthV3Password) then "3"
      else if decide (Cloud.AuthType cloud = AuthV3Token) then "3"
      else if decide (Cloud.AuthType cloud = AuthV3ApplicationCredential) then "3"
      else identityAPI
    else identityAPI in
  let identityAPI := if decide (identityAPI = "") then "3" else identityAPI in
  identityAPI.

(** *** v2auth and v3auth

    Both write through the pointer [cloud.AuthInfo]; the embedding returns
    the cloud as the call leaves it together with what the call returns.
    With [cloud.AuthInfo] nil the first statement dereferences nil. *)

(** v2auth, lines 515-523: the options built from the auth info. *)
Definition v2auth_options (a : AuthInfo.t) : gophercloud.AuthOptions.t :=
  {| gophercloud.AuthOptions.IdentityEndpoint := AuthInfo.AuthURL a;
     gophercloud.AuthOptions.TokenID := AuthInfo.Token a;
     gophercloud.AuthOptions.Username := AuthInfo.Username a;
     gophercloud.AuthOptions.Password := AuthInfo.Password a;
     gophercloud.AuthOptions.TenantID := AuthInfo.ProjectID a;
     gophercloud.AuthOptions.TenantName := AuthInfo.ProjectName a;
     gophercloud.AuthOptions.AllowReauth := AuthInfo.AllowReauth a;
     gophercloud.AuthOptions.UserID := "";
     gophercloud.AuthOptions.DomainID := "";
     gophercloud.AuthOptions.DomainName := "";
     gophercloud.AuthOptions.Scope := None;
     gophercloud.AuthOptions.ApplicationCredentialID := "";
     gophercloud.AuthOptions.ApplicationCredentialName := "";
     gophercloud.AuthOptions.ApplicationCredentialSecret := "" |}.

(** v2auth creates a v2-compatible gophercloud.AuthOptions struct. *)
Definition v2auth (cloud : Cloud.t) (opts : option ClientOpts.t)
    : Cloud.t * result gophercloud.AuthOptions.t :=
  match Cloud.AuthInfo cloud with
  | None => (cloud, Panic)
  | Some a =>
      let envPrefix := envPrefixOf opts in
      let a := v2auth_env envPrefix a in
      let ao := v2auth_options a in
      (Cloud.setAuthInfo (Some a) cloud, Ok ao)
  end.

(** v3auth, lines 656-688: the scope, and the domain defaulting. *)
Definition v3auth_scope (a : AuthInfo.t) : AuthInfo.t * gophercloud.AuthScope.t :=
  let scope := gophercloud.AuthScope.zero in
  if isApplicationCredential a then
    (setDomainIfNeeded a, scope)
  else if negb (isProjectScoped a) then
    let scope :=
      if decide (AuthInfo.DomainID a ≠ "") then
        gophercloud.AuthScope.mk
          (gophercloud.AuthScope.ProjectID scope) (gophercloud.AuthScope.ProjectName scope)
          (AuthInfo.DomainID a) (gophercloud.AuthScope.DomainName scope)
          (gophercloud.AuthScope.System scope)
      else if decide (AuthInfo.DomainName a ≠ "") then
        gophercloud.AuthScope.mk
          (gophercloud.AuthScope.ProjectID scope) (gophercloud.AuthScope.ProjectName scope)
          (gophercloud.AuthScope.DomainID scope) (AuthInfo.DomainName a)
          (gophercloud.AuthScope.System scope)
      else scope in
    let scope :=
      if decide (AuthInfo.SystemScope a ≠ "") then
        gophercloud.AuthScope.mk
          (gophercloud.AuthScope.ProjectID scope) (gophercloud.AuthScope.ProjectName scope)
          (gophercloud.AuthScope.DomainID scope) (gophercloud.AuthScope.DomainName scope)
          true
      else scope in
    (a, scope)
  else
    let a := setDomainIfNeeded a in
    let scope :=
      if decide (AuthInfo.ProjectID a ≠ "") then
        gophercloud.AuthScope.mk
          (AuthInfo.ProjectID a) (gophercloud.AuthScope.ProjectName scope)
          (gophercloud.AuthScope.DomainID scope) (gophercloud.AuthScope.DomainName scope)
          (gophercloud.AuthScope.System scope)
      else
        gophercloud.AuthScope.mk
          (gophercloud.AuthScope.ProjectID scope) (AuthInfo.ProjectName a)
          (AuthInfo.ProjectDomainID a) (AuthInfo.ProjectDomainName a)
          (gophercloud.AuthScope.System scope) in
    (a, scope).

(** v3auth, lines 707-718: token auth unsets the password options. *)
Definition v3auth_token (authType : AuthType) (ao : gophercloud.AuthOptions.t)
    : gophercloud.AuthOptions.t :=
  if strings_Contains authType "token"
     || bool_decide (gophercloud.AuthOptions.TokenID ao ≠ "")
  then
    {| gophercloud.AuthOptions.IdentityEndpoint := gophercloud.AuthOptions.IdentityEndpoint ao;
       gophercloud.AuthOptions.TokenID := gophercloud.AuthOptions.TokenID ao;
       gophercloud.AuthOptions.Username := "";
       gophercloud.AuthOptions.Password := "";
       gophercloud.AuthOptions.UserID := "";
       gophercloud.AuthOptions.DomainID := "";
       gophercloud.AuthOptions.DomainName := "";
       gophercloud.AuthOptions.TenantID := gophercloud.AuthOptions.TenantID ao;
       gophercloud.AuthOptions.TenantName := gophercloud.AuthOptions.TenantName ao;
       gophercloud.AuthOptions.AllowReauth := gophercloud.AuthOptions.AllowReauth ao;
       gophercloud.AuthOptions.Scope := gophercloud.AuthOptions.Scope ao;
       gophercloud.AuthOptions.ApplicationCredentialID :=
         gophercloud.AuthOptions.ApplicationCredentialID ao;
       gophercloud.AuthOptions.ApplicationCredentialName :=
         gophercloud.AuthOptions.ApplicationCredentialName ao;
       gophercloud.AuthOptions.ApplicationCredentialSecret :=
         gophercloud.AuthOptions.ApplicationCredentialSecret ao |}
  else ao.

(** v3auth, lines 690-705: the options built from the auth info and the scope. *)
Definition v3auth_options (a : AuthInfo.t) (scope : gophercloud.AuthScope.t)
    : gophercloud.AuthOptions.t :=
  {| gophercloud.AuthOptions.Scope := Some scope;
     gophercloud.AuthOptions.IdentityEndpoint := AuthInfo.AuthURL a;
     gophercloud.AuthOptions.TokenID := AuthInfo.Token a;
     gophercloud.AuthOptions.Username := AuthInfo.Username a;
     gophercloud.AuthOptions.UserID := AuthInfo.UserID a;
     gophercloud.AuthOptions.Password := AuthInfo.Password a;
     gophercloud.AuthOptions.TenantID := AuthInfo.ProjectID a;
     gophercloud.AuthOptions.TenantName := AuthInfo.ProjectName a;
     gophercloud.AuthOptions.DomainID := AuthInfo.UserDomainID a;
     gophercloud.AuthOptions.DomainName := AuthInfo.UserDomainName a;
     gophercloud.AuthOptions.ApplicationCredentialID :=
       AuthInfo.ApplicationCredentialID a;
     gophercloud.AuthOptions.ApplicationCredentialName :=
       AuthInfo.ApplicationCredentialName a;
     gophercloud.AuthOptions.ApplicationCredentialSecret :=
       AuthInfo.ApplicationCredentialSecret a;
     gophercloud.AuthOptions.AllowReauth := AuthInfo.AllowReauth a |}.

(** v3auth creates a v3-compatible gophercloud.AuthOptions struct. *)
Definition v3auth (cloud : Cloud.t) (opts : option ClientOpts.t)
    : Cloud.t * result gophercloud.AuthOptions.t :=
  match Cloud.AuthInfo cloud with
  | None => (cloud, Panic)
  | Some a =>
      let envPrefix := envPrefixOf opts in
      let a := v3auth_env envPrefix a in
      let '(a, scope) := v3auth_scope a in
      let cloud := Cloud.setAuthInfo (Some a) cloud in
      let ao := v3auth_options a scope in
      let ao := v3auth_token (Cloud.AuthType cloud) ao in
      if decide (gophercloud.AuthOptions.IdentityEndpoint ao = "")
      then (cloud, Err (ErrMissingInput "auth_url"))
      else (cloud, Ok ao)
  end.

(** *** AuthOptions *)

(** AuthOptions, lines 347-395: the cloud the options are built from. *)
Definition AuthOptions_cloud (opts : ClientOpts.t) : result Cloud.t :=
  let cloud := Cloud.zero in
  let cloudName := cloudNameOf w opts in
  cloud ← (if decide (cloudName ≠ "") then GetCloudFromYAML w (Some opts) else Ok cloud);
  match Cloud.AuthInfo cloud with
  | None =>
      let cloud :=
        match ClientOpts.AuthInfo opts with
        | Some a => Cloud.setAuthInfo (Some a) cloud
        | None => cloud
        end in
      match Cloud.AuthInfo cloud with
      | None => Ok (Cloud.setAuthInfo (Some AuthInfo.zero) cloud)
      | Some _ => Ok cloud
      end
  | Some _ => Ok cloud
  end.

(** AuthOptions creates a gophercloud.AuthOptions structure with the
    settings found in a specific cloud entry of a clouds.yaml file or
    based on authentication settings given in ClientOpts. *)
Definition AuthOptions (opts : option ClientOpts.t) : result gophercloud.AuthOptions.t :=
  let opts := default ClientOpts.zero opts in
  cloud ← AuthOptions_cloud opts;
  let identityAPI := determineIdentityAPI cloud (Some opts) in
  if decide (identityAPI = "2.0" ∨ identityAPI = "2") then (v2auth cloud (Some opts)).2
  else if decide (identityAPI = "3") then (v3auth cloud (Some opts)).2
  else Err (Errorf "Unable to build AuthOptions").

End Authentication.

(** ** The merge helper, from the spec *)

(** A non-zero [high] value overrides [low]; a zero one retains [low]. *)
Definition override {A} (isZero : A → bool) (low high : A) : A :=
  if isZero high then low else high.

Definition stringIsZero (s : string) : bool := bool_decide (s = "").
Definition boolIsZero (b : bool) : bool := negb b.
Definition ptrIsZero {A} (p : option A) : bool :=
  match p with
  | None => true
  | Some _ => false
  end.
Definition sliceIsZero {A} (l : list A) : bool :=
  match l with
  | [] => true
  | _ :: _ => false
  end.

(** Modelled from the spec: the merge of two [AuthInfo] values inside
    [mergeClouds], which is not in the modelled source file; the spec asks
    that the merge be defined for every field of AuthInfo, field by field. *)
Definition mergeAuthInfo (low high : AuthInfo.t) : AuthInfo.t :=
  {| AuthInfo.AuthURL := override stringIsZero (AuthInfo.AuthURL low) (AuthInfo.AuthURL high);
     AuthInfo.Token := override stringIsZero (AuthInfo.Token low) (AuthInfo.Token high);
     AuthInfo.Username := override stringIsZero (AuthInfo.Username low) (AuthInfo.Username high);
     AuthInfo.UserID := override stringIsZero (AuthInfo.UserID low) (AuthInfo.UserID high);
     AuthInfo.Password := override stringIsZero (AuthInfo.Password low) (AuthInfo.Password high);
     AuthInfo.ApplicationCredentialID :=
       override stringIsZero (AuthInfo.ApplicationCredentialID low)
         (AuthInfo.ApplicationCredentialID high);
     AuthInfo.ApplicationCredentialName :=
       override stringIsZero (AuthInfo.ApplicationCredentialName low)
         (AuthInfo.ApplicationCredentialName high);
     AuthInfo.ApplicationCredentialSecret :=
       override stringIsZero (AuthInfo.ApplicationCredentialSecret low)
         (AuthInfo.ApplicationCredentialSecret high);
     AuthInfo.SystemScope :=
       override stringIsZero (AuthInfo.SystemScope low) (AuthInfo.SystemScope high);
     AuthInfo.ProjectName :=
       override stringIsZero (AuthInfo.ProjectName low) (AuthInfo.ProjectName high);
     AuthInfo.ProjectID :=
       override stringIsZero (AuthInfo.ProjectID low) (AuthInfo.ProjectID high);
     AuthInfo.UserDomainName :=
       override stringIsZero (AuthInfo.UserDomainName low) (AuthInfo.UserDomainName high);
     AuthInfo.UserDomainID :=
       override stringIsZero (AuthInfo.UserDomainID low) (AuthInfo.UserDomainID high);
     AuthInfo.ProjectDomainName :=
       override stringIsZero (AuthInfo.ProjectDomainName low)
         (AuthInfo.ProjectDomainName high);
     AuthInfo.ProjectDomainID :=
       override stringIsZero (AuthInfo.ProjectDomainID low) (AuthInfo.ProjectDomainID high);
     AuthInfo.DomainName :=
       override stringIsZero (AuthInfo.DomainName low) (AuthInfo.DomainName high);
     AuthInfo.DomainID :=
       override stringIsZero (AuthInfo.DomainID low) (AuthInfo.DomainID high);
     AuthInfo.DefaultDomain :=
       override stringIsZero (AuthInfo.DefaultDomain low) (AuthInfo.DefaultDomain high);
     AuthInfo.AllowReauth :=
       override boolIsZero (AuthInfo.AllowReauth low) (AuthInfo.AllowReauth high) |}.

(** Modelled from the spec: the field-by-field merge of two [Cloud] values
    inside [mergeClouds]. The embedded AuthInfo is itself merged field by
    field when both sides have one; a side without one leaves the other's. *)
Definition mergeCloudValues (low high : Cloud.t) : Cloud.t :=
  {| Cloud.Cloud := override stringIsZero (Cloud.Cloud low) (Cloud.Cloud high);
     Cloud.Profile := override stringIsZero (Cloud.Profile low) (Cloud.Profile high);
     Cloud.AuthInfo :=
       match Cloud.AuthInfo low, Cloud.AuthInfo high with
       | Some l, Some h => Some (mergeAuthInfo l h)
       | l, h => override ptrIsZero l h
       end;
     Cloud.AuthType := override stringIsZero (Cloud.AuthType low) (Cloud.AuthType high);
     Cloud.RegionName := override stringIsZero (Cloud.RegionName low) (Cloud.RegionName high);
     Cloud.Regions := override sliceIsZero (Cloud.Regions low) (Cloud.Regions high);
     Cloud.EndpointType :=
       override stringIsZero (Cloud.EndpointType low) (Cloud.EndpointType high);
     Cloud.Interface := override stringIsZero (Cloud.Interface low) (Cloud.Interface high);
     Cloud.IdentityAPIVersion :=
       override stringIsZero (Cloud.IdentityAPIVersion low) (Cloud.IdentityAPIVersion high);
     Cloud.VolumeAPIVersion :=
       override stringIsZero (Cloud.VolumeAPIVersion low) (Cloud.VolumeAPIVersion high);
     Cloud.Verify := override ptrIsZero (Cloud.Verify low) (Cloud.Verify high);
     Cloud.CACertFile := override stringIsZero (Cloud.CACertFile low) (Cloud.CACertFile high);
     Cloud.ClientCertFile :=
       override stringIsZero (Cloud.ClientCertFile low) (Cloud.ClientCertFile high);
     Cloud.ClientKeyFile :=
       override stringIsZero (Cloud.ClientKeyFile low) (Cloud.ClientKeyFile high) |}.

(** Modelled from the spec: the helper [mergeClouds], which is not in the
    modelled source file. The spec gives the merge as field by field: a
    non-zero field of the overriding value is the result, a zero one retains
    the value of the base. Its resolution steps fix which argument overrides
    at each of the three calls: [mergeClouds(cloud, publicCloud)] keeps the
    values present on the cloud and lets the profile fill the gaps,
    [mergeClouds(secureCloud, cloud)] has the secure values take precedence,
    and [mergeClouds(v.Values, cloud)] has the region values win. In all
    three the first argument overrides the second, so the first parameter
    is [high] and the second [low]. The spec names no failure of the merge,
    so it always returns a cloud; a nil [*Cloud] argument counts as a cloud
    with every field zero. *)
Definition mergeClouds (high low : option Cloud.t) : result Cloud.t :=
  Ok (mergeCloudValues (default Cloud.zero low) (default Cloud.zero high)).

(** ** Example inputs *)

(** An environment given by the list of its variables. *)
Definition envOf (vars : list (string * string)) : string → string :=
  λ k, default "" ((list_to_map vars : gmap string string) !! k).

(** A world with the environment [vars] and the merge helper [merge], in
    which none of the three YAML files exists. *)
Definition worldOf (vars : list (string * string))
    (merge : option Cloud.t → option Cloud.t → result Cloud.t) : World.t :=
  {| World.getenv := envOf vars;
     World.FindAndReadCloudsYAML := Err ErrNotExist;
     World.FindAndReadSecureCloudsYAML := Err ErrNotExist;
     World.FindAndReadPublicCloudsYAML := Err ErrNotExist;
     World.yamlUnmarshalClouds := λ _, Ok None;
     World.yamlUnmarshalPublicClouds := λ _, Ok None;
     World.mergeClouds := merge |}.

(** Options that name the cloud [name] and load the three given documents. *)
Definition optsOf (name : string) (clouds secure public : CloudMap) : ClientOpts.t :=
  {| ClientOpts.Cloud := name;
     ClientOpts.EnvPrefix := "";
     ClientOpts.AuthType := "";
     ClientOpts.AuthInfo := None;
     ClientOpts.RegionName := "";
     ClientOpts.EndpointType := "";
     ClientOpts.YAMLOpts :=
       Some {| YAMLOptsBuilder.LoadCloudsYAML := Ok clouds;
               YAMLOptsBuilder.LoadSecureCloudsYAML := Ok secure;
               YAMLOptsBuilder.LoadPublicCloudsYAML := Ok public |} |}.

(** An [auth:] section with a URL, a token, a user name and a password. *)
Definition authOf (url token username password : string) : AuthInfo.t :=
  AuthInfo.mk url token username "" password "" "" "" "" "" "" "" "" "" "" "" "" "" false.

(** A cloud entry with an [auth:] section, an auth type, a region name, an
    interface, an endpoint type, an identity API version and a profile. *)
Definition cloudOf (auth : option AuthInfo.t) (authType regionName interface
    endpointType identityAPIVersion profile : string) : Cloud.t :=
  Cloud.mk "" profile auth authType regionName [] endpointType interface
    identityAPIVersion "" None "" "" "".

(** ** The precedence of the identity API version, as a decision list *)

(** The first non-empty string of a list of candidates, [""] without one. *)
Fixpoint firstNonEmpty (candidates : list string) : string :=
  match candidates with
  | [] => ""
  | c :: rest => if decide (c ≠ "") then c else firstNonEmpty rest
  end.

(** The version inferred from the auth URL: ["3"] when it contains [v3],
    else ["2.0"] when it contains [v2.0]; nothing without an AuthInfo. *)
Definition identityFromURL (authInfo : option AuthInfo.t) : string :=
  match authInfo with
  | Some a =>
      if strings_Contains (AuthInfo.AuthURL a) "v3" then "3"
      else if strings_Contains (AuthInfo.AuthURL a) "v2.0" then "2.0"
      else ""
  | None => ""
  end.

(** The version inferred from the declared auth type. *)
Definition identityFromAuthType (authType : AuthType) : string :=
  if bool_decide (authType ∈ [AuthV2Password; AuthV2Token]) then "2.0"
  else if bool_decide (authType ∈ [AuthV3Password; AuthV3Token; AuthV3ApplicationCredential])
  then "3"
  else "".

(** Environment variable, explicit field, auth URL, auth type, default. *)
Definition identityAPI_precedence (w : World.t) (cloud : Cloud.t)
    (opts : option ClientOpts.t) : string :=
  firstNonEmpty
    [ World.getenv w (envPrefixOf opts ++ "IDENTITY_API_VERSION");
      Cloud.IdentityAPIVersion cloud;
      identityFromURL (Cloud.AuthInfo cloud);
      identityFromAuthType (Cloud.AuthType cloud);
      "3" ].



(** *** The inputs of the examples *)

Definition exAuth : AuthInfo.t :=
  authOf "https://keystone.example/v3" "" "alice" "from-clouds".

Definition exMyCloud : Cloud.t :=
  cloudOf (Some exAuth) "" "RegionOne" "internal" "" "" "".

Definition exOther : Cloud.t := cloudOf None "" "RegionTwo" "" "public" "" "".

Definition exClouds : CloudMap :=
  Some {[ "mycloud" := exMyCloud; "other" := exOther ]}.

(** No environment variable is set. *)
Definition exWorld : World.t := worldOf [] mergeClouds.

(** [OS_CLOUD=mycloud] *)
Definition exEnvWorld : World.t := worldOf [("OS_CLOUD", "mycloud")] mergeClouds.

(** [OS_IDENTITY_API_VERSION=2.0] *)
Definition exIdentityWorld : World.t :=
  worldOf [("OS_IDENTITY_API_VERSION", "2.0")] mergeClouds.

(** A cloud entry with [identity_api_version: "3"]. *)
Definition exIdentityCloud : Cloud.t := cloudOf None "" "" "" "" "3" "".

(** The clouds.yaml file holds [exClouds]; secure.yaml and
    clouds-public.yaml do not exist. *)
Definition exFileWorld : World.t :=
  {| World.getenv := envOf [];
     World.FindAndReadCloudsYAML := Ok "clouds";
     World.FindAndReadSecureCloudsYAML := Err ErrNotExist;
     World.FindAndReadPublicCloudsYAML := Err ErrNotExist;
     World.yamlUnmarshalClouds := λ _, Ok exClouds;
     World.yamlUnmarshalPublicClouds := λ _, Ok None;
     World.mergeClouds := mergeClouds |}.

(** Options that name [mycloud] and use the default loaders. *)
Definition exFileOpts : ClientOpts.t :=
  ClientOpts.mk "mycloud" "" "" None "" "" None.



(** A secure document with one entry, and no primary entry at all. *)
Definition exSoleSecureOpts : ClientOpts.t :=
  optsOf "" None (Some {[ "only" := exMyCloud ]}) None.

(** What GetCloudFromYAML returns for [mycloud] of [exClouds]. *)
Definition exResolved : Cloud.t :=
  Cloud.setInterface ""
    (Cloud.setEndpointType "internal" (Cloud.setVerify (Some true) exMyCloud)).

Definition exRegion (name : string) : Cloud.Region := Cloud.mkRegion name Cloud.zero.

(** A cloud with the profile [vendorX] and a region list of its own, and
    the [vendorX] entry of the catalog with another region list. *)
Definition exProfiled : Cloud.t :=
  Cloud.mk "" "vendorX" None "" "" [exRegion "primary-region"] "" "" "" "" None "" "" "".



(** A v2 password cloud without an [auth:] section. *)
Definition exV2Opts : ClientOpts.t :=
  optsOf "legacy" (Some {[ "legacy" := cloudOf None AuthV2Password "" "" "" "" "" ]})
    None None.

(** A v2 token cloud that also carries a user name and a password. *)
Definition exV2TokenOpts : ClientOpts.t :=
  optsOf "legacy"
    (Some {[ "legacy" :=
               cloudOf (Some (authOf "https://keystone.example/v2.0" "tok" "alice" "secret"))
                 AuthV2Token "" "" "" "" "" ]})
    None None.



(** ** The variables of the environment fallback, field by field *)

(** The variables v3auth reads for a field, in the order it reads them. *)
Definition v3auth_variables (f : AuthInfo.field) : list string :=
  match f with
  | AuthInfo.fAuthURL => ["AUTH_URL"]
  | AuthInfo.fToken => ["TOKEN"; "AUTH_TOKEN"]
  | AuthInfo.fUsername => ["USERNAME"]
  | AuthInfo.fUserID => ["USER_ID"]
  | AuthInfo.fPassword => ["PASSWORD"]
  | AuthInfo.fProjectID => ["TENANT_ID"; "PROJECT_ID"]
  | AuthInfo.fProjectName => ["TENANT_NAME"; "PROJECT_NAME"]
  | AuthInfo.fDomainID => ["DOMAIN_ID"]
  | AuthInfo.fDomainName => ["DOMAIN_NAME"]
  | AuthInfo.fDefaultDomain => ["DEFAULT_DOMAIN"]
  | AuthInfo.fProjectDomainID => ["PROJECT_DOMAIN_ID"]
  | AuthInfo.fProjectDomainName => ["PROJECT_DOMAIN_NAME"]
  | AuthInfo.fUserDomainID => ["USER_DOMAIN_ID"]
  | AuthInfo.fUserDomainName => ["USER_DOMAIN_NAME"]
  | AuthInfo.fApplicationCredentialID => ["APPLICATION_CREDENTIAL_ID"]
  | AuthInfo.fApplicationCredentialName => ["APPLICATION_CREDENTIAL_NAME"]
  | AuthInfo.fApplicationCredentialSecret => ["APPLICATION_CREDENTIAL_SECRET"]
  | AuthInfo.fSystemScope => ["SYSTEM_SCOPE"]
  end.

(** The variables v2auth reads for a field; none for most fields. *)
Definition v2auth_variables (f : AuthInfo.field) : list string :=
  match f with
  | AuthInfo.fAuthURL => ["AUTH_URL"]
  | AuthInfo.fToken => ["TOKEN"; "AUTH_TOKEN"]
  | AuthInfo.fUsername => ["USERNAME"]
  | AuthInfo.fPassword => ["PASSWORD"]
  | AuthInfo.fProjectID => ["TENANT_ID"; "PROJECT_ID"]
  | AuthInfo.fProjectName => ["TENANT_NAME"; "PROJECT_NAME"]
  | _ => []
  end.

(** ** NewServiceClient: the settings it computes before and after it
    calls the SDK *)

(** The pattern
    [var x string; if v := c1; v != "" { x = v }; ..; if v := cn; v != "" { x = v }]:
    every non-empty candidate overwrites [x]. *)
Definition lastSet (candidates : list string) : string :=
  foldl (λ x v, if decide (v ≠ "") then v else x) "" candidates.

(** The constructor of the SDK that NewServiceClient ends with. *)
Inductive ServiceConstructor : Type :=
  | NewBareMetalV1 | NewBareMetalIntrospectionV1 | NewComputeV2 | NewContainerV1
  | NewContainerInfraV1 | NewDBV1 | NewDNSV2 | NewGnocchiV1 | NewIdentityV2
  | NewIdentityV3 | NewImageV2 | NewKeyManagerV1 | NewLoadBalancerV2
  | NewMessagingV2 (clientID : string) | NewNetworkV2 | NewObjectStorageV1
  | NewOrchestrationV1 | NewPlacementV1 | NewSharedFileSystemV2
  | NewBlockStorageV1 | NewBlockStorageV2 | NewBlockStorageV3 | NewWorkflowV2.

(** The service names of the switch, in its order. *)
Definition serviceNames : list string :=
  [ "baremetal"; "baremetal-introspection"; "compute"; "container";
    "container-infra"; "database"; "dns"; "gnocchi"; "identity"; "image";
    "key-manager"; "load-balancer"; "messaging"; "network"; "object-store";
    "orchestration"; "placement"; "sharev2"; "volume"; "workflowv2" ].

Section ServiceClient.

Context (w : World.t).

Local Abbreviation getenv := (World.getenv w).

(** NewServiceClient, lines 742-775: the cloud entry, when a cloud name was
    determined. The name of the environment overwrites the one of [opts]
    here; GetCloudFromYAML determines the name again from [opts]. *)
Definition NewServiceClient_cloud (opts : ClientOpts.t) : result Cloud.t :=
  let cloud := Cloud.zero in
  let cloudName := "" in
  let cloudName :=
    if decide (ClientOpts.Cloud opts ≠ "") then ClientOpts.Cloud opts else cloudName in
  let envPrefix := envPrefixOf (Some opts) in
  let v := getenv (envPrefix ++ "CLOUD") in
  let cloudName := if decide (v ≠ "") then v else cloudName in
  if decide (cloudName ≠ "") then GetCloudFromYAML w (Some opts) else Ok cloud.

(** Lines 777-786. *)
Definition NewServiceClient_caCertPath (opts : ClientOpts.t) (cloud : Cloud.t) : string :=
  lastSet [getenv (envPrefixOf (Some opts) ++ "CACERT"); Cloud.CACertFile cloud].

(** Lines 788-797. *)
Definition NewServiceClient_clientCertPath (opts : ClientOpts.t) (cloud : Cloud.t)
    : string :=
  lastSet [getenv (envPrefixOf (Some opts) ++ "CERT"); Cloud.ClientCertFile cloud].

(** Lines 799-808. *)
Definition NewServiceClient_clientKeyPath (opts : ClientOpts.t) (cloud : Cloud.t)
    : string :=
  lastSet [getenv (envPrefixOf (Some opts) ++ "KEY"); Cloud.ClientKeyFile cloud].

(** Lines 810-816: the negation of the verify flag, nil when it is nil. *)
Definition NewServiceClient_insecure (cloud : Cloud.t) : option bool :=
  match Cloud.Verify cloud with
  | Some verify => Some (negb verify)
  | None => None
  end.

(** Lines 848-864. *)
Definition NewServiceClient_region (opts : ClientOpts.t) (cloud : Cloud.t) : string :=
  lastSet [getenv (envPrefixOf (Some opts) ++ "REGION_NAME"); Cloud.RegionName cloud;
           ClientOpts.RegionName opts].

(** Lines 866-882: the string handed to GetEndpointType. *)
Definition NewServiceClient_endpointType (opts : ClientOpts.t) (cloud : Cloud.t)
    : string :=
  lastSet [getenv (envPrefixOf (Some opts) ++ "INTERFACE"); Cloud.EndpointType cloud;
           ClientOpts.EndpointType opts].

End ServiceClient.

(** NewServiceClient, lines 889-962: the switch on the service name.
    [uuid_NewV4] is what [uuid.NewV4()] returns, as a string. *)
Definition NewServiceClient_service (uuid_NewV4 : result string) (service : string)
    (cloud : Cloud.t) : result ServiceConstructor :=
  if decide (service = "baremetal") then Ok NewBareMetalV1
  else if decide (service = "baremetal-introspection") then Ok NewBareMetalIntrospectionV1
  else if decide (service = "compute") then Ok NewComputeV2
  else if decide (service = "container") then Ok NewContainerV1
  else if decide (service = "container-infra") then Ok NewContainerInfraV1
  else if decide (service = "database") then Ok NewDBV1
  else if decide (service = "dns") then Ok NewDNSV2
  else if decide (service = "gnocchi") then Ok NewGnocchiV1
  else if decide (service = "identity") then
    let identityVersion := "3" in
    let identityVersion :=
      if decide (Cloud.IdentityAPIVersion cloud ≠ "")
      then Cloud.IdentityAPIVersion cloud else identityVersion in
    if bool_decide (identityVersion ∈ ["v2"; "2"; "2.0"]) then Ok NewIdentityV2
    else if bool_decide (identityVersion ∈ ["v3"; "3"]) then Ok NewIdentityV3
    else Err (Errorf "invalid identity API version")
  else if decide (service = "image") then Ok NewImageV2
  else if decide (service = "key-manager") then Ok NewKeyManagerV1
  else if decide (service = "load-balancer") then Ok NewLoadBalancerV2
  else if decide (service = "messaging") then
    match uuid_NewV4 with
    | Ok clientID => Ok (NewMessagingV2 clientID)
    | Err err => Err (ErrorfW "failed to generate UUID" err)
    | Panic => Panic
    end
  else if decide (service = "network") then Ok NewNetworkV2
  else if decide (service = "object-store") then Ok NewObjectStorageV1
  else if decide (service = "orchestration") then Ok NewOrchestrationV1
  else if decide (service = "placement") then Ok NewPlacementV1
  else if decide (service = "sharev2") then Ok NewSharedFileSystemV2
  else if decide (service = "volume") then
    let volumeVersion := "3" in
    let volumeVersion :=
      if decide (Cloud.VolumeAPIVersion cloud ≠ "")
      then Cloud.VolumeAPIVersion cloud else volumeVersion in
    if bool_decide (volumeVersion ∈ ["v1"; "1"]) then Ok NewBlockStorageV1
    else if bool_decide (volumeVersion ∈ ["v2"; "2"]) then Ok NewBlockStorageV2
    else if bool_decide (volumeVersion ∈ ["v3"; "3"]) then Ok NewBlockStorageV3
    else Err (Errorf "invalid volume API version")
  else if decide (service = "workflowv2") then Ok NewWorkflowV2
  else Err (Errorf ("unable to create a service client for " ++ service)).

(** [OS_AUTH_URL], [OS_TOKEN] and [OS_AUTH_TOKEN] are set. *)
Definition exTokenWorld : World.t :=
  worldOf [("OS_AUTH_URL", "https://keystone.example/v3"); ("OS_TOKEN", "first");
           ("OS_AUTH_TOKEN", "second")] mergeClouds.

(** A project-scoped user with a bare domain name. *)
Definition exProjectAuth : AuthInfo.t :=
  AuthInfo.mk "https://keystone.example/v3" "" "alice" "" "secret" "" "" "" "all"
    "demo" "" "" "" "" "" "Default" "" "" false.

(** A user without a project, with a bare domain ID and a system scope. *)
Definition exDomainAuth : AuthInfo.t :=
  AuthInfo.mk "https://keystone.example/v3" "" "alice" "" "secret" "" "" "" "all"
    "" "" "" "" "" "" "" "default" "" false.

(** A cloud entry with [identity_api_version: v3]. *)
Definition exV3SpelledOpts : ClientOpts.t :=
  optsOf "mycloud"
    (Some {[ "mycloud" := cloudOf (Some exAuth) "" "" "" "" "v3" "" ]}) None None.

(** A cloud with two regions of the same name. *)
Definition exRegionsCloud : Cloud.t :=
  Cloud.mk "" "" None "" ""
    [ Cloud.mkRegion "east" (cloudOf None "" "" "" "" "" "");
      Cloud.mkRegion "west" (cloudOf None "" "" "" "public" "" "");
      Cloud.mkRegion "west" (cloudOf None "" "" "" "internal" "" "") ]
    "" "" "" "" None "" "" "".

(** * Properties *)

(** ** Auxiliary facts on results, maps and records *)

Lemma result_bind_Ok {A B} (a : A) (f : A → result B) : (Ok a ≫= f) = f a.
Proof. reflexivity. Qed.

Lemma wrapErr_Ok {A} (msg : string) (a : A) : wrapErr msg (Ok a) = Ok a.
Proof. reflexivity. Qed.

Lemma size_1_singleton {A} (m : gmap string A) :
  size m = 1 → ∃ k v, m = {[k := v]}.
Proof.
  intros Hsz. rewrite <- length_map_to_list in Hsz.
  destruct (map_to_list m) as [|[k v] [|? ?]] eqn:Hl; simplify_eq/=.
  exists k, v. apply map_to_list_inj. rewrite Hl, map_to_list_singleton. done.
Qed.

Lemma len_1_singleton (m : CloudMap) :
  len m = 1 → ∃ k v, m = Some {[k := v]}.
Proof.
  destruct m as [m|]; simpl; [|discriminate].
  intros (k & v & ->)%size_1_singleton. eauto.
Qed.

Lemma rangeAssign_singleton (k : string) (v : Cloud.t) (cloud : option Cloud.t) :
  rangeAssign (Some {[k := v]}) cloud = Some v.
Proof. unfold rangeAssign. rewrite map_to_list_singleton. reflexivity. Qed.

Lemma mapIndex_Some (m : CloudMap) (k : string) (v : Cloud.t) :
  m ≫= (λ m', m' !! k) = Some v → mapIndex m k = (v, true).
Proof. unfold mapIndex. intros ->. reflexivity. Qed.

Lemma mapIndex_None (m : CloudMap) (k : string) :
  m ≫= (λ m', m' !! k) = None → mapIndex m k = (Cloud.zero, false).
Proof. unfold mapIndex. intros ->. reflexivity. Qed.

Lemma Cloud_isZero_spec (c : Cloud.t) : Cloud.isZero c = true ↔ c = Cloud.zero.
Proof.
  split; [|intros ->; reflexivity].
  destruct c as [c p a t r rs e i iv vv v ca cc ck]. unfold Cloud.isZero.
  repeat (match goal with
          | |- context [match ?x with _ => _ end] => destruct x
          end; try discriminate).
  reflexivity.
Qed.

Lemma AuthInfo_get_set_eq (f : AuthInfo.field) (v : string) (a : AuthInfo.t) :
  AuthInfo.get f (AuthInfo.set f v a) = v.
Proof. destruct f; reflexivity. Qed.

Lemma AuthInfo_get_set_ne (f g : AuthInfo.field) (v : string) (a : AuthInfo.t) :
  f ≠ g → AuthInfo.get g (AuthInfo.set f v a) = AuthInfo.get g a.
Proof. intros Hne. destruct f, g; try reflexivity; contradiction. Qed.

(** ** GetCloudFromYAML *)

Section ResolverFacts.

Context (w : World.t).

Lemma GetCloudFromYAML_primary_named (clouds : CloudMap) (cloudName : string) (v : Cloud.t) :
  cloudName ≠ "" → clouds ≫= (λ m, m !! cloudName) = Some v →
  GetCloudFromYAML_primary clouds cloudName = Ok (Some v).
Proof.
  intros Hne Hv. unfold GetCloudFromYAML_primary.
  rewrite decide_True by done. rewrite (mapIndex_Some _ _ _ Hv). simpl.
  rewrite decide_False by (intros [? _]; done). reflexivity.
Qed.

Lemma GetCloudFromYAML_primary_missing (clouds : CloudMap) (cloudName : string) :
  cloudName ≠ "" → clouds ≫= (λ m, m !! cloudName) = None →
  GetCloudFromYAML_primary clouds cloudName
  = Err (Errorf ("cloud " ++ cloudName ++ " does not exist in clouds.yaml")).
Proof.
  intros Hne Hv. unfold GetCloudFromYAML_primary.
  rewrite decide_True by done. rewrite (mapIndex_None _ _ Hv). reflexivity.
Qed.

Lemma GetCloudFromYAML_primary_sole (k : string) (v : Cloud.t) :
  GetCloudFromYAML_primary (Some {[k := v]}) "" = Ok (Some v).
Proof.
  unfold GetCloudFromYAML_primary. rewrite decide_False by (intros H; apply H; done).
  simpl. rewrite decide_True by (split; [done|apply map_size_singleton]).
  rewrite map_to_list_singleton. reflexivity.
Qed.

Lemma GetCloudFromYAML_primary_none (clouds : CloudMap) :
  len clouds ≠ 1 → GetCloudFromYAML_primary clouds "" = Ok None.
Proof.
  intros Hlen. unfold GetCloudFromYAML_primary.
  rewrite decide_False by (intros H; apply H; done). simpl.
  rewrite decide_False by (intros [_ ?]; done). reflexivity.
Qed.

Lemma GetCloudFromYAML_unfold (opts : ClientOpts.t) (clouds : CloudMap) :
  YAMLOptsBuilder.LoadCloudsYAML (yamlOptsOf w opts) = Ok clouds →
  GetCloudFromYAML w (Some opts)
  = (cloud ← GetCloudFromYAML_primary clouds (cloudNameOf w opts);
     c ← GetCloudFromYAML_rest w opts (cloudNameOf w opts) cloud;
     Ok (GetCloudFromYAML_endpoint c)).
Proof.
  intros Hload. unfold GetCloudFromYAML, GetCloudFromYAML_resolve. simpl.
  rewrite Hload. simpl.
  destruct (GetCloudFromYAML_primary clouds (cloudNameOf w opts)); reflexivity.
Qed.

(** C2. GetCloudFromYAML determines the cloud name by precedence: a
    non-empty [opts.Cloud]; otherwise the value of the environment variable
    [envPrefix ++ "CLOUD"], with the prefix ["OS_"] unless [opts.EnvPrefix] is
    set. Once the primary document is loaded: a name that was determined
    and is absent from it makes the call fail with the cloud-not-found error
    of clouds.yaml; a name that is present selects its entry; and without a
    name, a primary document with exactly one entry has that entry selected,
    whatever its key. *)
Theorem GetCloudFromYAML_cloud_name (opts : ClientOpts.t) (clouds : CloudMap) :
  YAMLOptsBuilder.LoadCloudsYAML (yamlOptsOf w opts) = Ok clouds →
  let cloudName := cloudNameOf w opts in
  cloudName
  = (if decide (ClientOpts.Cloud opts ≠ "") then ClientOpts.Cloud opts
     else World.getenv w
            ((if decide (ClientOpts.EnvPrefix opts ≠ "")
              then ClientOpts.EnvPrefix opts else "OS_") ++ "CLOUD"))
  ∧ (cloudName ≠ "" → clouds ≫= (λ m, m !! cloudName) = None →
     GetCloudFromYAML w (Some opts)
     = Err (Errorf ("cloud " ++ cloudName ++ " does not exist in clouds.yaml")))
  ∧ (cloudName ≠ "" → ∀ v, clouds ≫= (λ m, m !! cloudName) = Some v →
     GetCloudFromYAML w (Some opts)
     = (c ← GetCloudFromYAML_rest w opts cloudName (Some v);
        Ok (GetCloudFromYAML_endpoint c)))
  ∧ (cloudName = "" → len clouds = 1 →
     ∃ k v, clouds = Some {[k := v]}
            ∧ GetCloudFromYAML w (Some opts)
              = (c ← GetCloudFromYAML_rest w opts "" (Some v);
                 Ok (GetCloudFromYAML_endpoint c))).
Proof.
  intros Hload cloudName. split; [|split; [|split]].
  - subst cloudName. unfold cloudNameOf, envPrefixOf.
    repeat case_decide; done.
  - intros Hne Hnone. rewrite (GetCloudFromYAML_unfold _ _ Hload).
    fold cloudName. by rewrite GetCloudFromYAML_primary_missing.
  - intros Hne v Hv. rewrite (GetCloudFromYAML_unfold _ _ Hload).
    fold cloudName. by rewrite (GetCloudFromYAML_primary_named _ _ v).
  - intros Hempty Hlen. destruct (len_1_singleton _ Hlen) as (k & v & ->).
    exists k, v. split; [done|]. rewrite (GetCloudFromYAML_unfold _ _ Hload).
    fold cloudName. rewrite Hempty. by rewrite GetCloudFromYAML_primary_sole.
Qed.


Lemma GetCloudFromYAML_final_found (opts : ClientOpts.t) (cloudName : string) (c : Cloud.t) (e : error) :
  GetCloudFromYAML_final w opts cloudName (Some c) ≠ Err e.
Proof.
  unfold GetCloudFromYAML_final. case_decide; [|done].
  destruct (GetCloudFromYAML_regions _ _ _ _); done.
Qed.

Lemma GetCloudFromYAML_rest_None (opts : ClientOpts.t) (cloudName : string) :
  GetCloudFromYAML_rest w opts cloudName None
  = (secureClouds ← wrapErr "unable to load secure.yaml"
                      (YAMLOptsBuilder.LoadSecureCloudsYAML (yamlOptsOf w opts));
     cloud ← GetCloudFromYAML_secure w secureClouds cloudName None;
     GetCloudFromYAML_final w opts cloudName cloud).
Proof. reflexivity. Qed.

(** C9. Every cloud that GetCloudFromYAML returns has an empty Interface.
    Its EndpointType is the Interface the cloud had before the last block
    when EndpointType was unset and Interface was set, and is otherwise the
    EndpointType the cloud had. *)
Theorem GetCloudFromYAML_endpoint_type (opts : option ClientOpts.t) (c : Cloud.t) :
  GetCloudFromYAML w opts = Ok c →
  Cloud.Interface c = ""
  ∧ ∃ c0, GetCloudFromYAML_resolve w (default ClientOpts.zero opts) = Ok c0
          ∧ Cloud.EndpointType c
            = (if decide (Cloud.EndpointType c0 = "" ∧ Cloud.Interface c0 ≠ "")
               then Cloud.Interface c0 else Cloud.EndpointType c0).
Proof.
  unfold GetCloudFromYAML.
  destruct (GetCloudFromYAML_resolve w (default ClientOpts.zero opts)) as [c0| |];
    simpl; [|done..].
  intros [= <-]. split; [reflexivity|]. exists c0. split; [reflexivity|].
  unfold GetCloudFromYAML_endpoint.
  destruct (decide (Cloud.Interface c0 ≠ "" ∧ Cloud.EndpointType c0 = "")) as [[Hi He]|Hn];
    simpl.
  - by rewrite decide_True.
  - rewrite decide_False; [done|]. intros [He Hi]. by apply Hn.
Qed.

Lemma GetCloudFromYAML_secure_sole (k : string) (v : Cloud.t) :
  GetCloudFromYAML_secure w (Some {[k := v]}) "" None
  = GetCloudFromYAML_secure w (Some {[k := v]}) "" (Some v).
Proof.
  unfold GetCloudFromYAML_secure.
  rewrite decide_True by (split_and!; [done..|apply map_size_singleton]).
  rewrite decide_False by (intros [? _]; done).
  by rewrite rangeAssign_singleton.
Qed.

Lemma GetCloudFromYAML_secure_other (k : string) (v : Cloud.t) :
  k ≠ "" → GetCloudFromYAML_secure w (Some {[k := v]}) "" (Some v) = Ok (Some v).
Proof.
  intros Hk. unfold GetCloudFromYAML_secure.
  rewrite decide_False by (intros [? _]; done).
  rewrite mapIndex_None by (simpl; by rewrite lookup_singleton_ne).
  reflexivity.
Qed.

Lemma GetCloudFromYAML_secure_found (secureClouds : CloudMap) (cloudName : string)
    (c : Cloud.t) (msg : string) :
  GetCloudFromYAML_secure w secureClouds cloudName (Some c) = Err (Errorf msg) →
  msg = "unable to merge information from clouds.yaml and secure.yaml".
Proof.
  unfold GetCloudFromYAML_secure. destruct secureClouds as [sm|]; [|done].
  rewrite decide_False by (intros [? _]; done).
  destruct (mapIndex (Some sm) cloudName) as [secureCloud ok].
  rewrite bool_decide_eq_false_2 by done. rewrite andb_false_r.
  destruct (_ && _); [|done].
  destruct (World.mergeClouds w _ _); naive_solver.
Qed.

(** C10. With no cloud name (no [opts.Cloud], no [CLOUD] variable), a
    primary document that yields no entry (it does not have exactly one)
    and a secure document with exactly one entry, GetCloudFromYAML takes
    that sole secure entry as the cloud: the secure block behaves as if the
    entry had been the cloud on entry, the call goes on to the final block
    with it, and it does not fail with the could-not-find error. *)
Theorem GetCloudFromYAML_sole_secure_entry (opts : ClientOpts.t) (clouds : CloudMap)
    (k : string) (v : Cloud.t) :
  cloudNameOf w opts = "" →
  YAMLOptsBuilder.LoadCloudsYAML (yamlOptsOf w opts) = Ok clouds →
  len clouds ≠ 1 →
  YAMLOptsBuilder.LoadSecureCloudsYAML (yamlOptsOf w opts) = Ok (Some {[k := v]}) →
  GetCloudFromYAML_primary clouds "" = Ok None
  ∧ GetCloudFromYAML_secure w (Some {[k := v]}) "" None
    = GetCloudFromYAML_secure w (Some {[k := v]}) "" (Some v)
  ∧ GetCloudFromYAML w (Some opts)
    = (cloud ← GetCloudFromYAML_secure w (Some {[k := v]}) "" (Some v);
       c ← GetCloudFromYAML_final w opts "" cloud;
       Ok (GetCloudFromYAML_endpoint c))
  ∧ (k ≠ "" →
     GetCloudFromYAML w (Some opts)
     = (c ← GetCloudFromYAML_final w opts "" (Some v);
        Ok (GetCloudFromYAML_endpoint c)))
  ∧ GetCloudFromYAML w (Some opts) ≠ Err (Errorf ("Could not find cloud " ++ "")).
Proof.
  intros Hname Hload Hlen Hsecure.
  assert (Hrun : GetCloudFromYAML w (Some opts)
    = (cloud ← GetCloudFromYAML_secure w (Some {[k := v]}) "" (Some v);
       c ← GetCloudFromYAML_final w opts "" cloud;
       Ok (GetCloudFromYAML_endpoint c))).
  { rewrite (GetCloudFromYAML_unfold _ _ Hload), Hname.
    rewrite GetCloudFromYAML_primary_none by done.
    rewrite result_bind_Ok, GetCloudFromYAML_rest_None, Hsecure, wrapErr_Ok.
    rewrite result_bind_Ok, GetCloudFromYAML_secure_sole.
    by destruct (GetCloudFromYAML_secure _ _ _ _). }
  split_and!.
  - by apply GetCloudFromYAML_primary_none.
  - apply GetCloudFromYAML_secure_sole.
  - exact Hrun.
  - intros Hk. rewrite Hrun. by rewrite GetCloudFromYAML_secure_other.
  - rewrite Hrun.
    destruct (GetCloudFromYAML_secure w _ "" (Some v)) as [[c|]|e|] eqn:Hs.
    + rewrite result_bind_Ok.
      pose proof (GetCloudFromYAML_final_found opts "" c) as Hf.
      destruct (GetCloudFromYAML_final w opts "" (Some c)) as [c'|e'|];
        [done| |done].
      by destruct (Hf e').
    + exfalso. revert Hs. unfold GetCloudFromYAML_secure.
      rewrite decide_False by (intros [? _]; done).
      destruct (mapIndex _ _) as [secureCloud ok].
      rewrite bool_decide_eq_false_2 by done. rewrite andb_false_r.
      destruct (_ && _); [|done].
      destruct (World.mergeClouds w _ _); done.
    + intros [= ->]. by apply GetCloudFromYAML_secure_found in Hs.
    + done.
Qed.

Lemma GetCloudFromYAML_secure_nil_empty (opts : ClientOpts.t)
    (c p : result CloudMap) :
  GetCloudFromYAML w
    (Some (ClientOpts.setYAMLOpts (Some (YAMLOptsBuilder.mk c (Ok None) p)) opts))
  = GetCloudFromYAML w
      (Some (ClientOpts.setYAMLOpts (Some (YAMLOptsBuilder.mk c (Ok (Some ∅)) p)) opts)).
Proof.
  unfold GetCloudFromYAML, GetCloudFromYAML_resolve. simpl.
  destruct c as [clouds| |]; simpl; [|done..].
  destruct (GetCloudFromYAML_primary clouds _) as [cloud| |]; simpl; [|done..].
  unfold GetCloudFromYAML_rest. simpl.
  destruct (GetCloudFromYAML_profile _ _ _) as [cloud'| |]; simpl; [|done..].
  unfold GetCloudFromYAML_secure. simpl.
  rewrite decide_False by (intros (_ & _ & ?); done).
  unfold mapIndex. simpl. rewrite lookup_empty. simpl.
  destruct cloud' as [c'|]; reflexivity.
Qed.

Lemma GetCloudFromYAML_public_nil_empty (opts : ClientOpts.t)
    (c s : result CloudMap) :
  GetCloudFromYAML w
    (Some (ClientOpts.setYAMLOpts (Some (YAMLOptsBuilder.mk c s (Ok None))) opts))
  = GetCloudFromYAML w
      (Some (ClientOpts.setYAMLOpts (Some (YAMLOptsBuilder.mk c s (Ok (Some ∅)))) opts)).
Proof.
  unfold GetCloudFromYAML, GetCloudFromYAML_resolve. simpl.
  destruct c as [clouds| |]; simpl; [|done..].
  destruct (GetCloudFromYAML_primary clouds _) as [cloud| |]; simpl; [|done..].
  unfold GetCloudFromYAML_rest. simpl.
  replace (GetCloudFromYAML_profile w (YAMLOptsBuilder.mk (Ok clouds) s (Ok None)) cloud)
    with (GetCloudFromYAML_profile w (YAMLOptsBuilder.mk (Ok clouds) s (Ok (Some ∅))) cloud);
    [done|].
  unfold GetCloudFromYAML_profile. destruct cloud as [c0|]; [|done].
  case_decide; [|done]. simpl. unfold mapIndex. simpl. by rewrite lookup_empty.
Qed.

Lemma GetCloudFromYAML_default_builder (opts : ClientOpts.t) :
  ClientOpts.YAMLOpts opts = None →
  GetCloudFromYAML w (Some opts)
  = GetCloudFromYAML w (Some (ClientOpts.setYAMLOpts (Some (YAMLOpts w)) opts)).
Proof. destruct opts as [? ? ? ? ? ? y]. simpl. intros ->. reflexivity. Qed.

(** C7. The default loaders of the secure and of the public document turn
    a not-exist error of the read into a nil map and no error, and
    GetCloudFromYAML then resolves exactly as with an empty document in
    that place. A failure to load the primary document, a not-exist error
    included, is returned by its loader and makes GetCloudFromYAML fail. *)
Theorem optional_documents_not_found (opts : ClientOpts.t) :
  (∀ e, World.FindAndReadSecureCloudsYAML w = Err e → isNotExist e = true →
        LoadSecureCloudsYAML w = Ok None
        ∧ (ClientOpts.YAMLOpts opts = None →
           GetCloudFromYAML w (Some opts)
           = GetCloudFromYAML w
               (Some (ClientOpts.setYAMLOpts
                        (Some (YAMLOptsBuilder.mk (LoadCloudsYAML w) (Ok (Some ∅))
                                 (LoadPublicCloudsYAML w))) opts))))
  ∧ (∀ e, World.FindAndReadPublicCloudsYAML w = Err e → isNotExist e = true →
          LoadPublicCloudsYAML w = Ok None
          ∧ (ClientOpts.YAMLOpts opts = None →
             GetCloudFromYAML w (Some opts)
             = GetCloudFromYAML w
                 (Some (ClientOpts.setYAMLOpts
                          (Some (YAMLOptsBuilder.mk (LoadCloudsYAML w)
                                   (LoadSecureCloudsYAML w) (Ok (Some ∅)))) opts))))
  ∧ (∀ e, World.FindAndReadCloudsYAML w = Err e →
          LoadCloudsYAML w = Err e
          ∧ (ClientOpts.YAMLOpts opts = None →
             GetCloudFromYAML w (Some opts)
             = Err (ErrorfW "unable to load clouds.yaml" e)))
  ∧ (∀ e, YAMLOptsBuilder.LoadCloudsYAML (yamlOptsOf w opts) = Err e →
          GetCloudFromYAML w (Some opts) = Err (ErrorfW "unable to load clouds.yaml" e)).
Proof.
  assert (Hfatal : ∀ e, YAMLOptsBuilder.LoadCloudsYAML (yamlOptsOf w opts) = Err e →
            GetCloudFromYAML w (Some opts) = Err (ErrorfW "unable to load clouds.yaml" e)).
  { intros e He. unfold GetCloudFromYAML, GetCloudFromYAML_resolve. simpl. by rewrite He. }
  split_and!.
  - intros e He Hne.
    assert (Hs : LoadSecureCloudsYAML w = Ok None)
      by (unfold LoadSecureCloudsYAML; by rewrite He, Hne).
    split; [done|]. intros Hdef.
    rewrite (GetCloudFromYAML_default_builder _ Hdef). unfold YAMLOpts. rewrite Hs.
    apply GetCloudFromYAML_secure_nil_empty.
  - intros e He Hne.
    assert (Hp : LoadPublicCloudsYAML w = Ok None)
      by (unfold LoadPublicCloudsYAML; by rewrite He, Hne).
    split; [done|]. intros Hdef.
    rewrite (GetCloudFromYAML_default_builder _ Hdef). unfold YAMLOpts. rewrite Hp.
    apply GetCloudFromYAML_public_nil_empty.
  - intros e He.
    assert (Hc : LoadCloudsYAML w = Err e) by (unfold LoadCloudsYAML; by rewrite He).
    split; [done|]. intros Hdef. apply Hfatal.
    unfold yamlOptsOf. by rewrite Hdef.
  - exact Hfatal.
Qed.

End ResolverFacts.

(** ** Environment fallback *)

Section AuthenticationFacts.

Context (w : World.t).

Lemma fromEnv_get_ne (envPrefix : string) (f g : AuthInfo.field) (keys : list string)
    (a : AuthInfo.t) :
  f ≠ g → AuthInfo.get g (fromEnv w envPrefix f keys a) = AuthInfo.get g a.
Proof.
  intros Hne. unfold fromEnv. case_decide; [|done]. clear H.
  induction keys as [|k keys IH] using rev_ind; [done|].
  rewrite foldl_app. simpl. case_decide; [|done].
  by rewrite AuthInfo_get_set_ne.
Qed.



Lemma fromEnv_get_one (envPrefix : string) (f : AuthInfo.field) (key : string)
    (a : AuthInfo.t) :
  AuthInfo.get f (fromEnv w envPrefix f [key] a)
  = (if decide (AuthInfo.get f a = "") then World.getenv w (envPrefix ++ key)
     else AuthInfo.get f a).
Proof.
  unfold fromEnv. case_decide as Hf; [|done]. simpl.
  case_decide as Hv; [by rewrite AuthInfo_get_set_eq|].
  by rewrite Hf, Hv.
Qed.

Lemma v3auth_env_unfold (envPrefix : string) (a : AuthInfo.t) :
  v3auth_env w envPrefix a = (fromEnv w envPrefix AuthInfo.fSystemScope ["SYSTEM_SCOPE"] (fromEnv w envPrefix AuthInfo.fApplicationCredentialSecret ["APPLICATION_CREDENTIAL_SECRET"] (fromEnv w envPrefix AuthInfo.fApplicationCredentialName ["APPLICATION_CREDENTIAL_NAME"] (fromEnv w envPrefix AuthInfo.fApplicationCredentialID ["APPLICATION_CREDENTIAL_ID"] (fromEnv w envPrefix AuthInfo.fUserDomainName ["USER_DOMAIN_NAME"] (fromEnv w envPrefix AuthInfo.fUserDomainID ["USER_DOMAIN_ID"] (fromEnv w envPrefix AuthInfo.fProjectDomainName ["PROJECT_DOMAIN_NAME"] (fromEnv w envPrefix AuthInfo.fProjectDomainID ["PROJECT_DOMAIN_ID"] (fromEnv w envPrefix AuthInfo.fDefaultDomain ["DEFAULT_DOMAIN"] (fromEnv w envPrefix AuthInfo.fDomainName ["DOMAIN_NAME"] (fromEnv w envPrefix AuthInfo.fDomainID ["DOMAIN_ID"] (fromEnv w envPrefix AuthInfo.fProjectName ["TENANT_NAME"; "PROJECT_NAME"] (fromEnv w envPrefix AuthInfo.fProjectID ["TENANT_ID"; "PROJECT_ID"] (fromEnv w envPrefix AuthInfo.fPassword ["PASSWORD"] (fromEnv w envPrefix AuthInfo.fUserID ["USER_ID"] (fromEnv w envPrefix AuthInfo.fUsername ["USERNAME"] (fromEnv w envPrefix AuthInfo.fToken ["TOKEN"; "AUTH_TOKEN"] (fromEnv w envPrefix AuthInfo.fAuthURL ["AUTH_URL"] a)))))))))))))))))).
Proof. reflexivity. Qed.


Lemma v3auth_env_AuthURL (envPrefix : string) (a : AuthInfo.t) :
  AuthInfo.get AuthInfo.fAuthURL (v3auth_env w envPrefix a)
  = (if decide (AuthInfo.AuthURL a = "") then World.getenv w (envPrefix ++ "AUTH_URL")
     else AuthInfo.AuthURL a).
Proof.
  rewrite v3auth_env_unfold, !fromEnv_get_ne by discriminate.
  apply fromEnv_get_one.
Qed.




End AuthenticationFacts.

(** ** setDomainIfNeeded *)

(** The whole effect of setDomainIfNeeded, field by field. *)
Lemma setDomainIfNeeded_eq (a : AuthInfo.t) :
  setDomainIfNeeded a
  = {| AuthInfo.AuthURL := AuthInfo.AuthURL a;
     AuthInfo.Token := AuthInfo.Token a;
     AuthInfo.Username := AuthInfo.Username a;
     AuthInfo.UserID := AuthInfo.UserID a;
     AuthInfo.Password := AuthInfo.Password a;
     AuthInfo.ApplicationCredentialID := AuthInfo.ApplicationCredentialID a;
     AuthInfo.ApplicationCredentialName := AuthInfo.ApplicationCredentialName a;
     AuthInfo.ApplicationCredentialSecret := AuthInfo.ApplicationCredentialSecret a;
     AuthInfo.SystemScope := AuthInfo.SystemScope a;
     AuthInfo.ProjectName := AuthInfo.ProjectName a;
     AuthInfo.ProjectID := AuthInfo.ProjectID a;
     AuthInfo.UserDomainName := (if decide (AuthInfo.UserDomainName a ≠ "") then AuthInfo.UserDomainName a
      else AuthInfo.DomainName a);
     AuthInfo.UserDomainID := (if decide (AuthInfo.UserDomainID a ≠ "") then AuthInfo.UserDomainID a
      else if decide (AuthInfo.DomainID a ≠ "") then AuthInfo.DomainID a
      else if decide (AuthInfo.UserDomainName a = "" ∧ AuthInfo.DomainName a = "")
      then AuthInfo.DefaultDomain a else "");
     AuthInfo.ProjectDomainName := (if decide (AuthInfo.ProjectDomainName a ≠ "") then AuthInfo.ProjectDomainName a
      else AuthInfo.DomainName a);
     AuthInfo.ProjectDomainID := (if decide (AuthInfo.ProjectDomainID a ≠ "") then AuthInfo.ProjectDomainID a
      else if decide (AuthInfo.DomainID a ≠ "") then AuthInfo.DomainID a
      else if decide (AuthInfo.ProjectDomainName a = "" ∧ AuthInfo.DomainName a = "")
      then AuthInfo.DefaultDomain a else "");
     AuthInfo.DomainName := "";
     AuthInfo.DomainID := "";
     AuthInfo.DefaultDomain := AuthInfo.DefaultDomain a;
     AuthInfo.AllowReauth := AuthInfo.AllowReauth a |}.
Proof.
  destruct a as [url tok un uid pw aci acn acs ss pn pid udn udi pdn pdi dn di dd ar].
  destruct di as [|c1 s1], dn as [|c2 s2], udi as [|c3 s3], pdi as [|c4 s4],
    udn as [|c5 s5], pdn as [|c6 s6], dd as [|c7 s7]; vm_compute; reflexivity.
Qed.

Lemma setDomainIfNeeded_other (f : AuthInfo.field) (a : AuthInfo.t) :
  f ∉ [AuthInfo.fDomainID; AuthInfo.fDomainName; AuthInfo.fUserDomainID;
       AuthInfo.fUserDomainName; AuthInfo.fProjectDomainID;
       AuthInfo.fProjectDomainName] →
  AuthInfo.get f (setDomainIfNeeded a) = AuthInfo.get f a.
Proof.
  intros Hf. rewrite setDomainIfNeeded_eq.
  destruct f; try reflexivity; exfalso; apply Hf;
    repeat first [apply list_elem_of_here | apply list_elem_of_further].
Qed.

(** ** determineIdentityAPI *)

Section IdentityFacts.
Context (w : World.t).

Lemma identityFromAuthType_cases (t : AuthType) :
  identityFromAuthType t
  = (if decide (t = AuthV2Password) then "2.0"
     else if decide (t = AuthV2Token) then "2.0"
     else if decide (t = AuthV3Password) then "3"
     else if decide (t = AuthV3Token) then "3"
     else if decide (t = AuthV3ApplicationCredential) then "3"
     else "").
Proof.
  unfold identityFromAuthType.
  destruct (decide (t = AuthV2Password)) as [->|H1]; [reflexivity|].
  destruct (decide (t = AuthV2Token)) as [->|H2]; [reflexivity|].
  destruct (decide (t = AuthV3Password)) as [->|H3]; [reflexivity|].
  destruct (decide (t = AuthV3Token)) as [->|H4]; [reflexivity|].
  destruct (decide (t = AuthV3ApplicationCredential)) as [->|H5]; [reflexivity|].
  rewrite bool_decide_eq_false_2
    by (intros [?|[?|[]%elem_of_nil]%elem_of_cons]%elem_of_cons; done).
  by rewrite bool_decide_eq_false_2
    by (intros [?|[?|[?|[]%elem_of_nil]%elem_of_cons]%elem_of_cons]%elem_of_cons; done).
Qed.

(** C3, as amended. The identity API version is the first non-empty of:
    the environment variable [envPrefix ++ "IDENTITY_API_VERSION"]; the
    cloud's IdentityAPIVersion field; the version inferred from the auth URL
    (["3"] when it contains [v3], else ["2.0"] when it contains [v2.0]); the
    version inferred from the declared auth type; ["3"]. The environment
    variable, when set, wins over the explicit field. *)
Theorem determineIdentityAPI_precedence (cloud : Cloud.t) (opts : option ClientOpts.t) :
  determineIdentityAPI w cloud opts = identityAPI_precedence w cloud opts.
Proof.
  unfold determineIdentityAPI, identityAPI_precedence, firstNonEmpty.
  rewrite identityFromAuthType_cases. unfold identityFromURL.
  generalize (World.getenv w (envPrefixOf opts +:+ "IDENTITY_API_VERSION")) as v.
  generalize (Cloud.IdentityAPIVersion cloud) as ver. intros ver v.
  destruct v as [|c1 s1], ver as [|c2 s2]; try reflexivity.
  cbn -[strings_Contains].
  destruct (Cloud.AuthInfo cloud) as [a|].
  - destruct (strings_Contains (AuthInfo.AuthURL a) "v3");
      destruct (strings_Contains (AuthInfo.AuthURL a) "v2.0"); cbn;
      repeat case_decide; done.
  - repeat case_decide; done.
Qed.
End IdentityFacts.

(** C3 as stated fails: with the field set to ["3"] and the variable
    [OS_IDENTITY_API_VERSION] set to ["2.0"], the version is ["2.0"]. *)
Lemma determineIdentityAPI_env_over_field :
  Cloud.IdentityAPIVersion exIdentityCloud = "3"
  ∧ determineIdentityAPI exIdentityWorld exIdentityCloud (Some ClientOpts.zero) = "2.0"
  ∧ determineIdentityAPI exIdentityWorld exIdentityCloud (Some ClientOpts.zero)
    ≠ Cloud.IdentityAPIVersion exIdentityCloud.
Proof. vm_compute. split_and!; [reflexivity..|discriminate]. Qed.
(** ** v3auth *)

Lemma AuthInfo_get_AuthURL (a : AuthInfo.t) :
  AuthInfo.get AuthInfo.fAuthURL a = AuthInfo.AuthURL a.
Proof. reflexivity. Qed.

Lemma v3auth_token_keeps (t : AuthType) (ao : gophercloud.AuthOptions.t) :
  gophercloud.AuthOptions.IdentityEndpoint (v3auth_token t ao)
  = gophercloud.AuthOptions.IdentityEndpoint ao
  ∧ gophercloud.AuthOptions.TokenID (v3auth_token t ao) = gophercloud.AuthOptions.TokenID ao
  ∧ gophercloud.AuthOptions.Scope (v3auth_token t ao) = gophercloud.AuthOptions.Scope ao
  ∧ gophercloud.AuthOptions.TenantID (v3auth_token t ao) = gophercloud.AuthOptions.TenantID ao
  ∧ gophercloud.AuthOptions.TenantName (v3auth_token t ao)
    = gophercloud.AuthOptions.TenantName ao.
Proof. unfold v3auth_token. by destruct (_ || _). Qed.

Lemma v3auth_scope_AuthURL (e : AuthInfo.t) :
  AuthInfo.AuthURL (v3auth_scope e).1 = AuthInfo.AuthURL e.
Proof.
  unfold v3auth_scope.
  destruct (isApplicationCredential e); [|destruct (negb (isProjectScoped e))]; simpl;
    try reflexivity;
    by rewrite <- !AuthInfo_get_AuthURL, setDomainIfNeeded_other
      by (intros H; repeat (apply elem_of_cons in H as [?|H]; [done|]); by apply elem_of_nil in H).
Qed.

Section V3Facts.

Context (w : World.t).

Lemma v3auth_Some (cloud : Cloud.t) (opts : option ClientOpts.t) (a e : AuthInfo.t) :
  Cloud.AuthInfo cloud = Some a →
  v3auth_env w (envPrefixOf opts) a = e →
  v3auth w cloud opts
  = (let cloud' := Cloud.setAuthInfo (Some (v3auth_scope e).1) cloud in
     let ao := v3auth_token (Cloud.AuthType cloud)
                 (v3auth_options (v3auth_scope e).1 (v3auth_scope e).2) in
     if decide (gophercloud.AuthOptions.IdentityEndpoint ao = "")
     then (cloud', Err (ErrMissingInput "auth_url"))
     else (cloud', Ok ao)).
Proof.
  intros Ha He. unfold v3auth. rewrite Ha, He.
  destruct (v3auth_scope e) as [a' scope]. reflexivity.
Qed.

Lemma v3auth_env_AuthURL' (envPrefix : string) (a e : AuthInfo.t) :
  v3auth_env w envPrefix a = e →
  AuthInfo.AuthURL e
  = (if decide (AuthInfo.AuthURL a = "") then World.getenv w (envPrefix ++ "AUTH_URL")
     else AuthInfo.AuthURL a).
Proof.
  intros He. rewrite <- AuthInfo_get_AuthURL, <- He. apply v3auth_env_AuthURL.
Qed.

(** On the v3 path a call fails exactly when no auth URL is left after the
    environment fallback, with the missing-input error for [auth_url]; a
    successful result has that URL as its non-empty identity endpoint. *)
Lemma v3auth_requires_auth_url (cloud : Cloud.t) (opts : option ClientOpts.t)
    (a : AuthInfo.t) :
  Cloud.AuthInfo cloud = Some a →
  let url := if decide (AuthInfo.AuthURL a = "")
             then World.getenv w (envPrefixOf opts ++ "AUTH_URL")
             else AuthInfo.AuthURL a in
  (url = "" → (v3auth w cloud opts).2 = Err (ErrMissingInput "auth_url"))
  ∧ (url ≠ "" → ∃ ao, (v3auth w cloud opts).2 = Ok ao
                      ∧ gophercloud.AuthOptions.IdentityEndpoint ao = url).
Proof.
  intros Ha url.
  pose proof (v3auth_Some cloud opts a _ Ha eq_refl) as Hv.
  pose proof (v3auth_env_AuthURL' (envPrefixOf opts) a _ eq_refl) as Hurl.
  fold url in Hurl. revert Hv Hurl.
  generalize (v3auth_env w (envPrefixOf opts) a) as e. intros e Hv Hurl.
  rewrite Hv. clear Hv. cbv zeta.
  destruct (v3auth_token_keeps (Cloud.AuthType cloud)
              (v3auth_options (v3auth_scope e).1 (v3auth_scope e).2)) as (Hid & _).
  assert (Hend : gophercloud.AuthOptions.IdentityEndpoint
                   (v3auth_token (Cloud.AuthType cloud)
                      (v3auth_options (v3auth_scope e).1 (v3auth_scope e).2)) = url).
  { rewrite Hid. unfold v3auth_options. simpl. by rewrite v3auth_scope_AuthURL. }
  split; intros Hu.
  - rewrite decide_True by congruence. reflexivity.
  - rewrite decide_False by congruence. eauto.
Qed.

End V3Facts.
Lemma AuthInfo_get_Token (a : AuthInfo.t) :
  AuthInfo.get AuthInfo.fToken a = AuthInfo.Token a.
Proof. reflexivity. Qed.

Lemma v3auth_scope_Token (e : AuthInfo.t) :
  AuthInfo.Token (v3auth_scope e).1 = AuthInfo.Token e.
Proof.
  unfold v3auth_scope.
  destruct (isApplicationCredential e); [|destruct (negb (isProjectScoped e))]; simpl;
    try reflexivity;
    by rewrite <- !AuthInfo_get_Token, setDomainIfNeeded_other
      by (intros H; repeat (apply elem_of_cons in H as [?|H]; [done|]); by apply elem_of_nil in H).
Qed.

Section V3Token.

Context (w : World.t).

Lemma fromEnv_get_two (envPrefix : string) (f : AuthInfo.field) (k1 k2 : string)
    (a : AuthInfo.t) :
  AuthInfo.get f (fromEnv w envPrefix f [k1; k2] a)
  = (if decide (AuthInfo.get f a = "")
     then firstNonEmpty [World.getenv w (envPrefix ++ k2); World.getenv w (envPrefix ++ k1)]
     else AuthInfo.get f a).
Proof.
  unfold fromEnv, firstNonEmpty. case_decide as Hf; [|done]. simpl.
  destruct (decide (World.getenv w (envPrefix +:+ k2) ≠ "")) as [H2|H2].
  { by rewrite AuthInfo_get_set_eq. }
  apply dec_stable in H2.
  destruct (decide (World.getenv w (envPrefix +:+ k1) ≠ "")) as [H1|H1].
  { by rewrite AuthInfo_get_set_eq. }
  by rewrite Hf.
Qed.

Lemma v3auth_env_Token (envPrefix : string) (a e : AuthInfo.t) :
  v3auth_env w envPrefix a = e →
  AuthInfo.Token e
  = (if decide (AuthInfo.Token a = "")
     then firstNonEmpty [World.getenv w (envPrefix ++ "AUTH_TOKEN");
                         World.getenv w (envPrefix ++ "TOKEN")]
     else AuthInfo.Token a).
Proof.
  intros <-. rewrite <- AuthInfo_get_Token.
  rewrite v3auth_env_unfold, !fromEnv_get_ne by discriminate.
  rewrite fromEnv_get_two, fromEnv_get_ne by discriminate. reflexivity.
Qed.

(** On the v3 path, an auth type that contains [token], or a token left
    after the environment fallback, empties the user name, the password,
    the user ID and the user domain of the options. *)
Lemma v3auth_token_exclusive (cloud : Cloud.t) (opts : option ClientOpts.t)
    (a : AuthInfo.t) (ao : gophercloud.AuthOptions.t) :
  Cloud.AuthInfo cloud = Some a →
  (v3auth w cloud opts).2 = Ok ao →
  let token := if decide (AuthInfo.Token a = "")
               then firstNonEmpty [World.getenv w (envPrefixOf opts ++ "AUTH_TOKEN");
                                   World.getenv w (envPrefixOf opts ++ "TOKEN")]
               else AuthInfo.Token a in
  gophercloud.AuthOptions.TokenID ao = token
  ∧ (strings_Contains (Cloud.AuthType cloud) "token" = true ∨ token ≠ "" →
     gophercloud.AuthOptions.Username ao = ""
     ∧ gophercloud.AuthOptions.Password ao = ""
     ∧ gophercloud.AuthOptions.UserID ao = ""
     ∧ gophercloud.AuthOptions.DomainID ao = ""
     ∧ gophercloud.AuthOptions.DomainName ao = "").
Proof.
  intros Ha Hok token.
  pose proof (v3auth_Some w cloud opts a _ Ha eq_refl) as Hv.
  pose proof (v3auth_env_Token (envPrefixOf opts) a _ eq_refl) as Htok.
  fold token in Htok. revert Hv Htok.
  generalize (v3auth_env w (envPrefixOf opts) a) as e. intros e Hv Htok.
  rewrite Hv in Hok. clear Hv. cbv zeta in Hok.
  case_decide as Hurl; [done|]. simpl in Hok. injection Hok as <-.
  destruct (v3auth_token_keeps (Cloud.AuthType cloud)
              (v3auth_options (v3auth_scope e).1 (v3auth_scope e).2)) as (_ & Htid & _).
  assert (Hid : gophercloud.AuthOptions.TokenID
                  (v3auth_options (v3auth_scope e).1 (v3auth_scope e).2) = token).
  { unfold v3auth_options. simpl. by rewrite v3auth_scope_Token. }
  split; [by rewrite Htid|].
  intros Hcond. unfold v3auth_token. rewrite Hid.
  destruct (strings_Contains (Cloud.AuthType cloud) "token"); simpl; [done|].
  destruct Hcond as [?|Hne]; [done|]. by rewrite bool_decide_eq_true_2.
Qed.

End V3Token.

Section V3ApplicationCredential.

Context (w : World.t).


End V3ApplicationCredential.

Lemma result_bind_assoc {A B C} (r : result A) (f : A → result B) (g : B → result C) :
  (r ≫= f) ≫= g = r ≫= (λ a, f a ≫= g).
Proof. by destruct r. Qed.

(** ** The merge helper *)





Section MergeFacts.

Context (w : World.t).
Hypothesis Hmerge : World.mergeClouds w = mergeClouds.



End MergeFacts.

(** ** AuthOptions on the v2 path *)

(** C4 at its failing input: a cloud of auth type [v2password] with no
    auth URL in clouds.yaml or in the environment. AuthOptions takes the v2
    path and returns options whose identity endpoint is empty, with no
    error. *)
Theorem AuthOptions_v2_empty_endpoint :
  ∃ ao, AuthOptions exWorld (Some exV2Opts) = Ok ao
        ∧ gophercloud.AuthOptions.IdentityEndpoint ao = "".
Proof. eexists. split; vm_compute; reflexivity. Qed.

(** C5 at its failing input: a cloud of auth type [v2token] with a token, a
    user name and a password. AuthOptions takes the v2 path and returns the
    user name and the password with the token. *)
Theorem AuthOptions_v2_token_keeps_password :
  ∃ ao, AuthOptions exWorld (Some exV2TokenOpts) = Ok ao
        ∧ strings_Contains AuthV2Token "token" = true
        ∧ gophercloud.AuthOptions.TokenID ao = "tok"
        ∧ gophercloud.AuthOptions.Username ao = "alice"
        ∧ gophercloud.AuthOptions.Password ao = "secret".
Proof. eexists. split_and!; vm_compute; reflexivity. Qed.
(** ** More on setDomainIfNeeded *)

(** Applying setDomainIfNeeded twice is the same as applying it once. *)
Theorem setDomainIfNeeded_idempotent (a : AuthInfo.t) :
  setDomainIfNeeded (setDomainIfNeeded a) = setDomainIfNeeded a.
Proof.
  destruct a as [url tok un uid pw aci acn acs ss pn pid udn udi pdn pdi dn di dd ar].
  destruct di as [|c1 s1], dn as [|c2 s2], udi as [|c3 s3], pdi as [|c4 s4],
    udn as [|c5 s5], pdn as [|c6 s6], dd as [|c7 s7]; vm_compute; reflexivity.
Qed.

(** setDomainIfNeeded empties the bare DomainID and DomainName, keeps every
    other field that is set, and keeps every field outside the six domain
    fields whether set or not. *)
Theorem setDomainIfNeeded_keeps_set_values (a : AuthInfo.t) :
  AuthInfo.DomainID (setDomainIfNeeded a) = ""
  ∧ AuthInfo.DomainName (setDomainIfNeeded a) = ""
  ∧ (∀ f, f ≠ AuthInfo.fDomainID → f ≠ AuthInfo.fDomainName →
          AuthInfo.get f a ≠ "" →
          AuthInfo.get f (setDomainIfNeeded a) = AuthInfo.get f a)
  ∧ (∀ f, f ∉ [AuthInfo.fDomainID; AuthInfo.fDomainName; AuthInfo.fUserDomainID;
               AuthInfo.fUserDomainName; AuthInfo.fProjectDomainID;
               AuthInfo.fProjectDomainName] →
          AuthInfo.get f (setDomainIfNeeded a) = AuthInfo.get f a)
  ∧ AuthInfo.AllowReauth (setDomainIfNeeded a) = AuthInfo.AllowReauth a.
Proof.
  split_and!; try (by rewrite setDomainIfNeeded_eq).
  - intros f H1 H2 Hset. rewrite setDomainIfNeeded_eq.
    destruct f; try reflexivity; try (by destruct H1); try (by destruct H2);
      simpl in *; by rewrite decide_True by done.
  - intros f Hf. by apply setDomainIfNeeded_other.
Qed.

(** ** The scope of v3auth *)

(** Without an application credential and with a project ID or a project
    name, the domain defaulting is applied and the scope is the project ID
    alone when there is one, else the project name with the project domain
    left by the defaulting; the scope is never a system scope. *)
Theorem v3auth_scope_project (a : AuthInfo.t) :
  isApplicationCredential a = false →
  isProjectScoped a = true →
  (v3auth_scope a).1 = setDomainIfNeeded a
  ∧ gophercloud.AuthScope.System (v3auth_scope a).2 = false
  ∧ (AuthInfo.ProjectID a ≠ "" →
     (v3auth_scope a).2
     = gophercloud.AuthScope.mk (AuthInfo.ProjectID a) "" "" "" false)
  ∧ (AuthInfo.ProjectID a = "" →
     (v3auth_scope a).2
     = gophercloud.AuthScope.mk "" (AuthInfo.ProjectName a)
         (AuthInfo.ProjectDomainID (setDomainIfNeeded a))
         (AuthInfo.ProjectDomainName (setDomainIfNeeded a)) false).
Proof.
  intros Happ Hproj. unfold v3auth_scope. rewrite Happ, Hproj. cbn [negb fst snd].
  assert (Hpid : AuthInfo.ProjectID (setDomainIfNeeded a) = AuthInfo.ProjectID a)
    by (by rewrite setDomainIfNeeded_eq).
  assert (Hpn : AuthInfo.ProjectName (setDomainIfNeeded a) = AuthInfo.ProjectName a)
    by (by rewrite setDomainIfNeeded_eq).
  rewrite Hpid, Hpn.
  split_and!; [reflexivity|by destruct (decide _)|..].
  - intros Hid. by rewrite decide_True.
  - intros Hid. by rewrite decide_False by (intros H; by apply H).
Qed.

(** Without an application credential and without a project, the auth info
    is left as it is (no domain defaulting), and the scope has no project:
    it is the DomainID when there is one, else the DomainName, and it is a
    system scope exactly when SystemScope is set. *)
Theorem v3auth_scope_unscoped (a : AuthInfo.t) :
  isApplicationCredential a = false →
  isProjectScoped a = false →
  (v3auth_scope a).1 = a
  ∧ gophercloud.AuthScope.ProjectID (v3auth_scope a).2 = ""
  ∧ gophercloud.AuthScope.ProjectName (v3auth_scope a).2 = ""
  ∧ gophercloud.AuthScope.DomainID (v3auth_scope a).2 = AuthInfo.DomainID a
  ∧ gophercloud.AuthScope.DomainName (v3auth_scope a).2
    = (if decide (AuthInfo.DomainID a ≠ "") then "" else AuthInfo.DomainName a)
  ∧ gophercloud.AuthScope.System (v3auth_scope a).2
    = bool_decide (AuthInfo.SystemScope a ≠ "").
Proof.
  intros Happ Hproj. unfold v3auth_scope. rewrite Happ, Hproj. cbn [negb fst snd].
  destruct (decide (AuthInfo.DomainID a ≠ "")) as [Hd|Hd];
    destruct (decide (AuthInfo.DomainName a ≠ "")) as [Hn|Hn];
    destruct (decide (AuthInfo.SystemScope a ≠ "")) as [Hs|Hs];
    rewrite ?(bool_decide_eq_true_2 _ Hs), ?(bool_decide_eq_false_2 _ Hs);
    cbn; split_and!; try reflexivity.
  all: try (symmetry; by apply dec_stable).
Qed.
(** ** The environment fallback, field by field *)

Section EnvFacts.

Context (w : World.t).

Lemma fromEnv_get_same (envPrefix : string) (f : AuthInfo.field) (keys : list string)
    (a : AuthInfo.t) :
  AuthInfo.get f (fromEnv w envPrefix f keys a)
  = (if decide (AuthInfo.get f a = "")
     then firstNonEmpty (rev (map (λ k, World.getenv w (envPrefix ++ k)) keys))
     else AuthInfo.get f a).
Proof.
  unfold fromEnv. case_decide as Hf; [|done].
  induction keys as [|k keys IH] using rev_ind; [exact Hf|].
  rewrite foldl_app, map_app, rev_app_distr. simpl.
  destruct (decide (World.getenv w (envPrefix +:+ k) ≠ "")) as [Hk|Hk].
  - by rewrite AuthInfo_get_set_eq.
  - exact IH.
Qed.

Lemma v2auth_env_unfold (envPrefix : string) (a : AuthInfo.t) :
  v2auth_env w envPrefix a
  = fromEnv w envPrefix AuthInfo.fProjectName ["TENANT_NAME"; "PROJECT_NAME"]
      (fromEnv w envPrefix AuthInfo.fProjectID ["TENANT_ID"; "PROJECT_ID"]
         (fromEnv w envPrefix AuthInfo.fPassword ["PASSWORD"]
            (fromEnv w envPrefix AuthInfo.fUsername ["USERNAME"]
               (fromEnv w envPrefix AuthInfo.fToken ["TOKEN"; "AUTH_TOKEN"]
                  (fromEnv w envPrefix AuthInfo.fAuthURL ["AUTH_URL"] a))))).
Proof. reflexivity. Qed.

(** After the environment fallback of v3auth, every field has the value of
    the cloud entry when that is set; otherwise it has the value of the
    last of its variables that is set, and stays empty when none is. *)
Theorem v3auth_env_fields (envPrefix : string) (f : AuthInfo.field) (a : AuthInfo.t) :
  AuthInfo.get f (v3auth_env w envPrefix a)
  = (if decide (AuthInfo.get f a = "")
     then firstNonEmpty
            (rev (map (λ k, World.getenv w (envPrefix ++ k)) (v3auth_variables f)))
     else AuthInfo.get f a).
Proof.
  rewrite v3auth_env_unfold.
  destruct f; rewrite ?fromEnv_get_ne by discriminate;
    rewrite fromEnv_get_same, ?fromEnv_get_ne by discriminate; reflexivity.
Qed.

(** The same for v2auth, which reads variables for the URL, the token, the
    user name, the password and the project only: every other field is
    left as the cloud entry has it. *)
Theorem v2auth_env_fields (envPrefix : string) (f : AuthInfo.field) (a : AuthInfo.t) :
  AuthInfo.get f (v2auth_env w envPrefix a)
  = (if decide (AuthInfo.get f a = "")
     then firstNonEmpty
            (rev (map (λ k, World.getenv w (envPrefix ++ k)) (v2auth_variables f)))
     else AuthInfo.get f a).
Proof.
  rewrite v2auth_env_unfold.
  destruct f; rewrite ?fromEnv_get_ne by discriminate;
    try (rewrite fromEnv_get_same, ?fromEnv_get_ne by discriminate; reflexivity);
    cbn [v2auth_variables map rev firstNonEmpty]; by destruct (decide _).
Qed.

Lemma AuthInfo_AllowReauth_fromEnv (envPrefix : string) (f : AuthInfo.field)
    (keys : list string) (a : AuthInfo.t) :
  AuthInfo.AllowReauth (fromEnv w envPrefix f keys a) = AuthInfo.AllowReauth a.
Proof.
  unfold fromEnv. case_decide; [|done].
  induction keys as [|k keys IH] using rev_ind; [done|].
  rewrite foldl_app. simpl. by case_decide.
Qed.

End EnvFacts.

(** ** determineIdentityAPI is never empty *)

(** determineIdentityAPI never returns the empty string, and without the
    environment variable and the explicit field it returns ["2.0"] or ["3"]. *)
Theorem determineIdentityAPI_nonempty (w : World.t) (cloud : Cloud.t)
    (opts : option ClientOpts.t) :
  determineIdentityAPI w cloud opts ≠ ""
  ∧ (World.getenv w (envPrefixOf opts ++ "IDENTITY_API_VERSION") = "" →
     Cloud.IdentityAPIVersion cloud = "" →
     determineIdentityAPI w cloud opts = "2.0" ∨ determineIdentityAPI w cloud opts = "3").
Proof.
  unfold determineIdentityAPI.
  generalize (World.getenv w (envPrefixOf opts +:+ "IDENTITY_API_VERSION")) as v.
  generalize (Cloud.IdentityAPIVersion cloud) as ver. intros ver v.
  destruct v as [|c1 s1], ver as [|c2 s2]; cbn -[strings_Contains];
    try (split; [discriminate|intros; discriminate]).
  destruct (Cloud.AuthInfo cloud) as [a|].
  - destruct (strings_Contains (AuthInfo.AuthURL a) "v3");
      destruct (strings_Contains (AuthInfo.AuthURL a) "v2.0"); cbn;
      repeat case_decide; try done; split; try discriminate; auto.
  - repeat case_decide; try done; split; try discriminate; auto.
Qed.
(** ** AuthOptions *)

Section AuthOptionsFacts.

Context (w : World.t).

Lemma v2auth_envPrefix (cloud : Cloud.t) (o1 o2 : option ClientOpts.t) :
  envPrefixOf o1 = envPrefixOf o2 → v2auth w cloud o1 = v2auth w cloud o2.
Proof. intros H. unfold v2auth. by rewrite H. Qed.

Lemma v3auth_envPrefix (cloud : Cloud.t) (o1 o2 : option ClientOpts.t) :
  envPrefixOf o1 = envPrefixOf o2 → v3auth w cloud o1 = v3auth w cloud o2.
Proof. intros H. unfold v3auth. by rewrite H. Qed.

Lemma determineIdentityAPI_envPrefix (cloud : Cloud.t) (o1 o2 : option ClientOpts.t) :
  envPrefixOf o1 = envPrefixOf o2 →
  determineIdentityAPI w cloud o1 = determineIdentityAPI w cloud o2.
Proof. intros H. unfold determineIdentityAPI. by rewrite H. Qed.

Lemma AuthOptions_cloud_AuthInfo (opts : ClientOpts.t) (cloud : Cloud.t) :
  AuthOptions_cloud w opts = Ok cloud → is_Some (Cloud.AuthInfo cloud).
Proof.
  unfold AuthOptions_cloud.
  destruct (if decide (cloudNameOf w opts ≠ "") then _ else _) as [c| |]; [|done..].
  rewrite result_bind_Ok.
  destruct (Cloud.AuthInfo c) as [a|] eqn:Ha.
  - intros H. injection H as <-. by rewrite Ha.
  - destruct (ClientOpts.AuthInfo opts) as [a'|];
      cbn [Cloud.AuthInfo Cloud.setAuthInfo]; rewrite ?Ha;
      intros H; injection H as <-; cbn [Cloud.AuthInfo Cloud.setAuthInfo]; eauto.
Qed.

Lemma AuthOptions_unfold (opts : ClientOpts.t) (cloud : Cloud.t) :
  AuthOptions_cloud w opts = Ok cloud →
  AuthOptions w (Some opts)
  = (if decide (determineIdentityAPI w cloud (Some opts) = "2.0"
                ∨ determineIdentityAPI w cloud (Some opts) = "2")
     then (v2auth w cloud (Some opts)).2
     else if decide (determineIdentityAPI w cloud (Some opts) = "3")
     then (v3auth w cloud (Some opts)).2
     else Err (Errorf "Unable to build AuthOptions")).
Proof. intros H. unfold AuthOptions. simpl. by rewrite H. Qed.

(** Without a cloud name (no [opts.Cloud], no [CLOUD] variable) AuthOptions
    does not look at any YAML document: the options are built from
    [opts.AuthInfo], or from an empty auth info, and the environment, and
    are the same whatever loaders [opts] carries. With a cloud name, an
    error of GetCloudFromYAML is returned as it is. *)
Theorem AuthOptions_cloud_name (opts : ClientOpts.t) :
  (cloudNameOf w opts = "" →
   AuthOptions_cloud w opts
   = Ok (Cloud.setAuthInfo
           (Some (default AuthInfo.zero (ClientOpts.AuthInfo opts))) Cloud.zero)
   ∧ ∀ y, AuthOptions w (Some (ClientOpts.setYAMLOpts y opts)) = AuthOptions w (Some opts))
  ∧ (cloudNameOf w opts ≠ "" →
     ∀ e, GetCloudFromYAML w (Some opts) = Err e → AuthOptions w (Some opts) = Err e).
Proof.
  split.
  - intros Hname.
    assert (Hc : ∀ y, AuthOptions_cloud w (ClientOpts.setYAMLOpts y opts)
      = Ok (Cloud.setAuthInfo
              (Some (default AuthInfo.zero (ClientOpts.AuthInfo opts))) Cloud.zero)).
    { intros y. unfold AuthOptions_cloud.
      change (cloudNameOf w (ClientOpts.setYAMLOpts y opts)) with (cloudNameOf w opts).
      rewrite decide_False by (intros H; by apply H). rewrite result_bind_Ok.
      change (ClientOpts.AuthInfo (ClientOpts.setYAMLOpts y opts))
        with (ClientOpts.AuthInfo opts).
      by destruct (ClientOpts.AuthInfo opts). }
    assert (Hc0 : AuthOptions_cloud w opts
      = Ok (Cloud.setAuthInfo
              (Some (default AuthInfo.zero (ClientOpts.AuthInfo opts))) Cloud.zero)).
    { rewrite <- (Hc (ClientOpts.YAMLOpts opts)). by destruct opts. }
    split; [exact Hc0|]. intros y.
    rewrite (AuthOptions_unfold _ _ (Hc y)), (AuthOptions_unfold _ _ Hc0).
    rewrite (determineIdentityAPI_envPrefix _ (Some (ClientOpts.setYAMLOpts y opts))
               (Some opts)) by reflexivity.
    rewrite (v2auth_envPrefix _ (Some (ClientOpts.setYAMLOpts y opts)) (Some opts))
      by reflexivity.
    by rewrite (v3auth_envPrefix _ (Some (ClientOpts.setYAMLOpts y opts)) (Some opts))
      by reflexivity.
  - intros Hname e He. unfold AuthOptions, AuthOptions_cloud. simpl.
    rewrite decide_True by done. by rewrite He.
Qed.

(** Once the cloud is determined, AuthOptions fails with its own error
    exactly when the identity API version is none of ["2.0"], ["2"], ["3"]. *)
Theorem AuthOptions_unsupported_version (opts : ClientOpts.t) (cloud : Cloud.t) :
  AuthOptions_cloud w opts = Ok cloud →
  AuthOptions w (Some opts) = Err (Errorf "Unable to build AuthOptions")
  ↔ determineIdentityAPI w cloud (Some opts) ∉ ["2.0"; "2"; "3"].
Proof.
  intros Hc. rewrite (AuthOptions_unfold _ _ Hc).
  destruct (AuthOptions_cloud_AuthInfo _ _ Hc) as [a Ha].
  generalize (determineIdentityAPI w cloud (Some opts)) as v. intros v.
  destruct (decide (v = "2.0" ∨ v = "2")) as [Hv2|Hv2].
  { split.
    - unfold v2auth. by rewrite Ha.
    - intros Hn. exfalso. apply Hn. destruct Hv2 as [->| ->];
        repeat first [apply list_elem_of_here | apply list_elem_of_further]. }
  destruct (decide (v = "3")) as [->|Hv3].
  { split.
    - pose proof (v3auth_Some w cloud (Some opts) a _ Ha eq_refl) as Hv.
      rewrite Hv. cbv zeta. by destruct (decide _).
    - intros Hn. exfalso. apply Hn.
      repeat first [apply list_elem_of_here | apply list_elem_of_further]. }
  split; [|done]. intros _ Hin.
  repeat (apply elem_of_cons in Hin as [->|Hin]; [tauto|]).
  by apply elem_of_nil in Hin.
Qed.

End AuthOptionsFacts.
(** ** More on GetCloudFromYAML *)

Section ResolverMore.

Context (w : World.t).

Lemma GetCloudFromYAML_endpoint_Verify (c : Cloud.t) :
  Cloud.Verify (GetCloudFromYAML_endpoint c) = Cloud.Verify c.
Proof. unfold GetCloudFromYAML_endpoint. by case_decide. Qed.

Lemma GetCloudFromYAML_final_no_region (opts : ClientOpts.t) (cloudName : string)
    (c0 : Cloud.t) :
  ClientOpts.RegionName opts = "" →
  GetCloudFromYAML_final w opts cloudName (Some c0)
  = Ok (match Cloud.Verify c0 with
        | None => Cloud.setVerify (Some true) c0
        | Some _ => c0
        end).
Proof.
  intros Hr. unfold GetCloudFromYAML_final.
  by rewrite decide_False by (intros H; by apply H).
Qed.

(** Without a requested region, every cloud GetCloudFromYAML returns has
    its TLS verification flag set: the flag of the cloud when it had one,
    [true] otherwise. *)
Theorem GetCloudFromYAML_verify_default (opts : ClientOpts.t) :
  ClientOpts.RegionName opts = "" →
  (∀ cloudName c0,
     GetCloudFromYAML_final w opts cloudName (Some c0)
     = Ok (Cloud.setVerify (Some (default true (Cloud.Verify c0))) c0))
  ∧ (∀ c, GetCloudFromYAML w (Some opts) = Ok c → is_Some (Cloud.Verify c)).
Proof.
  intros Hr. split.
  - intros cloudName c0. rewrite GetCloudFromYAML_final_no_region by done.
    by destruct c0 as [? ? ? ? ? ? ? ? ? ? [b|] ? ? ?].
  - intros c. unfold GetCloudFromYAML, GetCloudFromYAML_resolve, GetCloudFromYAML_rest.
    cbn [default].
    destruct (wrapErr "unable to load clouds.yaml" _) as [clouds| |]; [|done..].
    rewrite result_bind_Ok.
    destruct (GetCloudFromYAML_primary _ _) as [c1| |]; [|done..].
    rewrite result_bind_Ok.
    destruct (GetCloudFromYAML_profile _ _ _) as [c2| |]; [|done..].
    rewrite result_bind_Ok.
    destruct (wrapErr "unable to load secure.yaml" _) as [sc| |]; [|done..].
    rewrite result_bind_Ok.
    destruct (GetCloudFromYAML_secure _ _ _ _) as [[c3|]| |]; [|done..].
    rewrite result_bind_Ok, GetCloudFromYAML_final_no_region, result_bind_Ok by done.
    intros H. injection H as <-. rewrite GetCloudFromYAML_endpoint_Verify.
    destruct (Cloud.Verify c3) eqn:Hv; [by rewrite Hv|]. simpl. eauto.
Qed.

(** The per-region overrides: without a region of the requested name the
    cloud is left as it is; otherwise the values of the first region of
    that name, and of no later one, are merged with the cloud. *)
Theorem GetCloudFromYAML_regions_first_match (regionName : string) (c : Cloud.t) :
  (∀ regions, Forall (λ r, Cloud.Name r ≠ regionName) regions →
              GetCloudFromYAML_regions w regionName regions c = Ok c)
  ∧ (∀ before r after,
       Forall (λ r', Cloud.Name r' ≠ regionName) before →
       Cloud.Name r = regionName →
       GetCloudFromYAML_regions w regionName (before ++ r :: after) c
       = World.mergeClouds w (Some (Cloud.Values r)) (Some c)).
Proof.
  split.
  - intros regions Hall. induction Hall as [|r regions Hr _ IH]; [done|].
    simpl. by rewrite decide_False by (intros H; by apply Hr).
  - intros before r after Hall Hr. induction Hall as [|r' before Hr' _ IH].
    + simpl. by rewrite decide_True.
    + simpl. by rewrite decide_False by (intros H; by apply Hr').
Qed.

(** Without a cloud name and with a primary document that does not select
    an entry, the public catalog is not consulted: the result is the same
    whatever its loader returns, also when the cloud taken from the secure
    document names a profile. *)
Theorem GetCloudFromYAML_secure_only_no_profile (opts : ClientOpts.t)
    (clouds : CloudMap) (s p p' : result CloudMap) :
  cloudNameOf w opts = "" →
  len clouds ≠ 1 →
  GetCloudFromYAML w
    (Some (ClientOpts.setYAMLOpts (Some (YAMLOptsBuilder.mk (Ok clouds) s p)) opts))
  = GetCloudFromYAML w
      (Some (ClientOpts.setYAMLOpts (Some (YAMLOptsBuilder.mk (Ok clouds) s p')) opts)).
Proof.
  intros Hname Hlen.
  rewrite !(GetCloudFromYAML_unfold w _ clouds) by reflexivity.
  change (cloudNameOf w (ClientOpts.setYAMLOpts _ opts)) with (cloudNameOf w opts).
  rewrite Hname, GetCloudFromYAML_primary_none, !result_bind_Ok by done.
  by rewrite !GetCloudFromYAML_rest_None.
Qed.

(** Without a cloud name, when neither the primary nor the secure document
    has exactly one entry and the secure document has no entry under the
    empty name, GetCloudFromYAML fails with the could-not-find error. *)
Theorem GetCloudFromYAML_not_found (opts : ClientOpts.t) (clouds secureClouds : CloudMap) :
  cloudNameOf w opts = "" →
  YAMLOptsBuilder.LoadCloudsYAML (yamlOptsOf w opts) = Ok clouds →
  len clouds ≠ 1 →
  YAMLOptsBuilder.LoadSecureCloudsYAML (yamlOptsOf w opts) = Ok secureClouds →
  len secureClouds ≠ 1 →
  secureClouds ≫= (λ m, m !! "") = None →
  GetCloudFromYAML w (Some opts) = Err (Errorf ("Could not find cloud " ++ "")).
Proof.
  intros Hname Hload Hlen Hsec Hslen Hnone.
  rewrite (GetCloudFromYAML_unfold _ _ _ Hload), Hname.
  rewrite GetCloudFromYAML_primary_none, result_bind_Ok by done.
  rewrite GetCloudFromYAML_rest_None, Hsec, wrapErr_Ok, result_bind_Ok.
  unfold GetCloudFromYAML_secure. destruct secureClouds as [sm|]; [|done].
  rewrite decide_False by (intros (_ & _ & ?); done).
  by rewrite (mapIndex_None _ _ Hnone).
Qed.

(** The secure document is optional only when it is missing: a read error
    that is not a not-exist error comes back from its loader, and a failing
    secure loader makes GetCloudFromYAML fail although the primary document
    gave the cloud. *)
Theorem GetCloudFromYAML_secure_load_error (opts : ClientOpts.t) (clouds : CloudMap)
    (cloud : option Cloud.t) (e : error) :
  YAMLOptsBuilder.LoadCloudsYAML (yamlOptsOf w opts) = Ok clouds →
  GetCloudFromYAML_primary clouds (cloudNameOf w opts)
    ≫= GetCloudFromYAML_profile w (yamlOptsOf w opts) = Ok cloud →
  (YAMLOptsBuilder.LoadSecureCloudsYAML (yamlOptsOf w opts) = Err e →
   GetCloudFromYAML w (Some opts) = Err (ErrorfW "unable to load secure.yaml" e))
  ∧ (World.FindAndReadSecureCloudsYAML w = Err e → isNotExist e = false →
     LoadSecureCloudsYAML w = Err e).
Proof.
  intros Hload Hpp. split.
  - intros Hsec. rewrite (GetCloudFromYAML_unfold _ _ _ Hload).
    unfold GetCloudFromYAML_rest. rewrite <- !result_bind_assoc.
    by rewrite Hpp, result_bind_Ok, Hsec.
  - intros He Hn. unfold LoadSecureCloudsYAML. by rewrite He, Hn.
Qed.

End ResolverMore.

(** ** NewServiceClient *)

Lemma lastSet_app (l : list string) (v : string) :
  lastSet (l ++ [v]) = (if decide (v ≠ "") then v else lastSet l).
Proof. unfold lastSet. by rewrite foldl_app. Qed.

Lemma lastSet_precedence (candidates : list string) :
  lastSet candidates = firstNonEmpty (rev candidates).
Proof.
  induction candidates as [|v l IH] using rev_ind; [done|].
  rewrite lastSet_app, rev_app_distr. simpl. by rewrite IH.
Qed.

Section ServiceClientFacts.

Context (w : World.t).

(** The region and the endpoint type of NewServiceClient: the value of
    [opts] when set, else the one of the cloud entry, else the one of the
    environment ([REGION_NAME], [INTERFACE]). *)
Theorem NewServiceClient_region_precedence (opts : ClientOpts.t) (cloud : Cloud.t) :
  NewServiceClient_region w opts cloud
  = firstNonEmpty [ClientOpts.RegionName opts; Cloud.RegionName cloud;
                   World.getenv w (envPrefixOf (Some opts) ++ "REGION_NAME")]
  ∧ NewServiceClient_endpointType w opts cloud
    = firstNonEmpty [ClientOpts.EndpointType opts; Cloud.EndpointType cloud;
                     World.getenv w (envPrefixOf (Some opts) ++ "INTERFACE")].
Proof.
  unfold NewServiceClient_region, NewServiceClient_endpointType.
  by rewrite !lastSet_precedence.
Qed.

(** The TLS settings of NewServiceClient: each file path is the one of the
    cloud entry when set, else the one of the environment ([CACERT],
    [CERT], [KEY]); the insecure flag is the negation of the verify flag,
    and is absent when the cloud has no verify flag. *)
Theorem NewServiceClient_tls_precedence (opts : ClientOpts.t) (cloud : Cloud.t) :
  NewServiceClient_caCertPath w opts cloud
  = firstNonEmpty [Cloud.CACertFile cloud;
                   World.getenv w (envPrefixOf (Some opts) ++ "CACERT")]
  ∧ NewServiceClient_clientCertPath w opts cloud
    = firstNonEmpty [Cloud.ClientCertFile cloud;
                     World.getenv w (envPrefixOf (Some opts) ++ "CERT")]
  ∧ NewServiceClient_clientKeyPath w opts cloud
    = firstNonEmpty [Cloud.ClientKeyFile cloud;
                     World.getenv w (envPrefixOf (Some opts) ++ "KEY")]
  ∧ (NewServiceClient_insecure cloud = None ↔ Cloud.Verify cloud = None)
  ∧ (∀ b, Cloud.Verify cloud = Some b → NewServiceClient_insecure cloud = Some (negb b)).
Proof.
  unfold NewServiceClient_caCertPath, NewServiceClient_clientCertPath,
    NewServiceClient_clientKeyPath, NewServiceClient_insecure.
  rewrite !lastSet_precedence.
  split_and!; try reflexivity.
  - by destruct (Cloud.Verify cloud).
  - by intros b ->.
Qed.

Lemma NewServiceClient_cloud_unfold (opts : ClientOpts.t) :
  NewServiceClient_cloud w opts
  = (if decide (cloudNameOf w opts ≠ "") then GetCloudFromYAML w (Some opts)
     else Ok Cloud.zero).
Proof.
  unfold NewServiceClient_cloud, cloudNameOf.
  generalize (World.getenv w (envPrefixOf (Some opts) +:+ "CLOUD")) as v. intros v.
  destruct (decide (ClientOpts.Cloud opts ≠ "")) as [Hc|Hc];
    destruct (decide (v ≠ "")) as [Hv|Hv];
    repeat first [rewrite decide_True by done | rewrite decide_False by done];
    reflexivity.
Qed.

Lemma AuthOptions_cloud_of_NewServiceClient_cloud (opts : ClientOpts.t) (cloud : Cloud.t) :
  NewServiceClient_cloud w opts = Ok cloud →
  AuthOptions_cloud w opts
  = Ok (Cloud.setAuthInfo
          (Some (default (default AuthInfo.zero (ClientOpts.AuthInfo opts))
                   (Cloud.AuthInfo cloud))) cloud).
Proof.
  rewrite NewServiceClient_cloud_unfold. intros Hc. unfold AuthOptions_cloud.
  cbv zeta. rewrite Hc, result_bind_Ok.
  destruct (Cloud.AuthInfo cloud) as [a|] eqn:Ha.
  - destruct cloud. simpl in *. by rewrite Ha.
  - destruct (ClientOpts.AuthInfo opts) as [a'|];
      cbn [Cloud.AuthInfo Cloud.setAuthInfo default]; by rewrite ?Ha.
Qed.

(** NewServiceClient looks the cloud up exactly when AuthOptions does, when
    [opts.Cloud] or the [CLOUD] variable is set, although it takes the
    name of the variable before the one of [opts] and AuthOptions the other
    way round. The cloud AuthOptions then builds the options from is the
    one of NewServiceClient, with the auth info of [opts], or an empty one,
    filled in when the cloud has none; an error of the lookup is the error
    of both. *)
Theorem NewServiceClient_cloud_name (opts : ClientOpts.t) :
  NewServiceClient_cloud w opts
  = (if decide (ClientOpts.Cloud opts ≠ ""
                ∨ World.getenv w (envPrefixOf (Some opts) ++ "CLOUD") ≠ "")
     then GetCloudFromYAML w (Some opts) else Ok Cloud.zero)
  ∧ (∀ cloud, NewServiceClient_cloud w opts = Ok cloud →
       AuthOptions_cloud w opts
       = Ok (Cloud.setAuthInfo
               (Some (default (default AuthInfo.zero (ClientOpts.AuthInfo opts))
                        (Cloud.AuthInfo cloud))) cloud))
  ∧ (∀ e, NewServiceClient_cloud w opts = Err e → AuthOptions w (Some opts) = Err e).
Proof.
  split_and!.
  - rewrite NewServiceClient_cloud_unfold. unfold cloudNameOf. cbv zeta.
    generalize (World.getenv w (envPrefixOf (Some opts) +:+ "CLOUD")) as v. intros v.
    destruct (decide (ClientOpts.Cloud opts ≠ "")) as [Hc|Hc];
      destruct (decide (v ≠ "")) as [Hv|Hv];
      repeat first [rewrite decide_True by tauto | rewrite decide_False by tauto];
      reflexivity.
  - apply AuthOptions_cloud_of_NewServiceClient_cloud.
  - intros e. rewrite NewServiceClient_cloud_unfold. intros He.
    unfold AuthOptions, AuthOptions_cloud. simpl. by rewrite He.
Qed.

(** A cloud whose identity API version is spelled [v2] or [v3], with no
    [IDENTITY_API_VERSION] variable: the switch of NewServiceClient for the
    service [identity] accepts the spelling, but AuthOptions, which
    NewServiceClient calls before the switch, fails on it. *)
Theorem identity_version_spelling (opts : ClientOpts.t) (cloud : Cloud.t) :
  NewServiceClient_cloud w opts = Ok cloud →
  World.getenv w (envPrefixOf (Some opts) ++ "IDENTITY_API_VERSION") = "" →
  Cloud.IdentityAPIVersion cloud = "v2" ∨ Cloud.IdentityAPIVersion cloud = "v3" →
  AuthOptions w (Some opts) = Err (Errorf "Unable to build AuthOptions")
  ∧ ∃ k, ∀ u, NewServiceClient_service u "identity" cloud = Ok k.
Proof.
  intros Hn Henv Hver. split.
  - rewrite (AuthOptions_unfold _ _ _ (AuthOptions_cloud_of_NewServiceClient_cloud _ _ Hn)).
    assert (Hd : ∀ a, determineIdentityAPI w (Cloud.setAuthInfo a cloud) (Some opts)
                      = Cloud.IdentityAPIVersion cloud).
    { intros a. unfold determineIdentityAPI. rewrite Henv.
      destruct cloud; simpl in *. destruct Hver as [-> | ->]; reflexivity. }
    rewrite !Hd. by destruct Hver as [-> | ->].
  - unfold NewServiceClient_service.
    destruct Hver as [-> | ->]; eexists; intros u; reflexivity.
Qed.

End ServiceClientFacts.

(** The switch of NewServiceClient fails with the unknown-service error
    exactly for the names outside its twenty cases. *)
Theorem NewServiceClient_service_unknown (u : result string) (service : string)
    (cloud : Cloud.t) :
  NewServiceClient_service u service cloud
  = Err (Errorf ("unable to create a service client for " ++ service))
  ↔ service ∉ serviceNames.
Proof.
  unfold NewServiceClient_service, serviceNames.
  repeat (destruct (decide (service = _)) as [->|?];
          [split; [|intros Hn; exfalso; apply Hn;
                    repeat first [apply list_elem_of_here | apply list_elem_of_further]]|]).
  all: try (by intros ?).
  - cbv zeta. repeat (destruct (bool_decide _)); intros H; discriminate H.
  - destruct u; intros H; discriminate H.
  - cbv zeta. repeat (destruct (bool_decide _)); intros H; discriminate H.
  - split; [|done]. intros _ Hin.
    repeat (apply elem_of_cons in Hin as [->|Hin]; [done|]).
    by apply elem_of_nil in Hin.
Qed.

(** ** The theorems at concrete inputs *)

Lemma GetCloudFromYAML_cloud_name_witness :
  GetCloudFromYAML exEnvWorld (Some (optsOf "" exClouds None None))
  = (c ← GetCloudFromYAML_rest exEnvWorld (optsOf "" exClouds None None)
           (cloudNameOf exEnvWorld (optsOf "" exClouds None None)) (Some exMyCloud);
     Ok (GetCloudFromYAML_endpoint c)).
Proof.
  destruct (GetCloudFromYAML_cloud_name exEnvWorld (optsOf "" exClouds None None)
              exClouds eq_refl) as (_ & _ & H & _).
  apply H; vm_compute; [discriminate|reflexivity].
Defined.

Lemma GetCloudFromYAML_endpoint_type_witness :
  Cloud.Interface exResolved = "".
Proof.
  apply (GetCloudFromYAML_endpoint_type exWorld
           (Some (optsOf "mycloud" exClouds None None)) exResolved).
  vm_compute. reflexivity.
Defined.

Lemma GetCloudFromYAML_sole_secure_entry_witness :
  GetCloudFromYAML exWorld (Some exSoleSecureOpts)
  ≠ Err (Errorf ("Could not find cloud " ++ "")).
Proof.
  apply (GetCloudFromYAML_sole_secure_entry exWorld exSoleSecureOpts None "only"
           exMyCloud); vm_compute; [reflexivity|reflexivity|discriminate|reflexivity].
Defined.

Lemma optional_documents_not_found_witness :
  LoadSecureCloudsYAML exFileWorld = Ok None.
Proof.
  destruct (optional_documents_not_found exFileWorld exFileOpts) as (H & _).
  apply (H ErrNotExist); reflexivity.
Defined.



Lemma v3auth_requires_auth_url_witness :
  (v3auth exWorld (Cloud.setAuthInfo (Some AuthInfo.zero) Cloud.zero) None).2
  = Err (ErrMissingInput "auth_url").
Proof.
  pose proof (v3auth_requires_auth_url exWorld
                (Cloud.setAuthInfo (Some AuthInfo.zero) Cloud.zero) None AuthInfo.zero
                eq_refl) as H.
  cbv zeta in H. destruct H as (H & _). apply H. vm_compute. reflexivity.
Defined.

Lemma v3auth_token_exclusive_witness :
  gophercloud.AuthOptions.Username
    (v3auth_token ""
       (v3auth_options (v3auth_env exTokenWorld "OS_" (authOf "" "" "alice" "secret"))
          gophercloud.AuthScope.zero))
  = "".
Proof.
  pose proof (v3auth_token_exclusive exTokenWorld
                (cloudOf (Some (authOf "" "" "alice" "secret")) "" "" "" "" "" "") None
                (authOf "" "" "alice" "secret")
                (v3auth_token ""
                   (v3auth_options
                      (v3auth_env exTokenWorld "OS_" (authOf "" "" "alice" "secret"))
                      gophercloud.AuthScope.zero))
                eq_refl) as H.
  cbv zeta in H. destruct H as (_ & H); [vm_compute; reflexivity|].
  apply H. right. vm_compute. discriminate.
Defined.

Lemma setDomainIfNeeded_keeps_set_values_witness :
  AuthInfo.get AuthInfo.fUsername (setDomainIfNeeded exProjectAuth)
  = AuthInfo.get AuthInfo.fUsername exProjectAuth.
Proof.
  destruct (setDomainIfNeeded_keeps_set_values exProjectAuth) as (_ & _ & H & _).
  apply H; discriminate.
Defined.

Lemma v3auth_scope_project_witness :
  (v3auth_scope exProjectAuth).2
  = gophercloud.AuthScope.mk "" (AuthInfo.ProjectName exProjectAuth)
      (AuthInfo.ProjectDomainID (setDomainIfNeeded exProjectAuth))
      (AuthInfo.ProjectDomainName (setDomainIfNeeded exProjectAuth)) false.
Proof.
  destruct (v3auth_scope_project exProjectAuth eq_refl eq_refl) as (_ & _ & _ & H).
  apply H. reflexivity.
Defined.

Lemma v3auth_scope_unscoped_witness :
  gophercloud.AuthScope.System (v3auth_scope exDomainAuth).2
  = bool_decide (AuthInfo.SystemScope exDomainAuth ≠ "").
Proof.
  destruct (v3auth_scope_unscoped exDomainAuth eq_refl eq_refl)
    as (_ & _ & _ & _ & _ & H).
  exact H.
Defined.

Lemma determineIdentityAPI_nonempty_witness :
  determineIdentityAPI exWorld Cloud.zero None = "2.0"
  ∨ determineIdentityAPI exWorld Cloud.zero None = "3".
Proof.
  destruct (determineIdentityAPI_nonempty exWorld Cloud.zero None) as (_ & H).
  apply H; vm_compute; reflexivity.
Defined.

Lemma AuthOptions_cloud_name_witness :
  AuthOptions_cloud exWorld ClientOpts.zero
  = Ok (Cloud.setAuthInfo
          (Some (default AuthInfo.zero (ClientOpts.AuthInfo ClientOpts.zero))) Cloud.zero).
Proof.
  destruct (AuthOptions_cloud_name exWorld ClientOpts.zero) as (H & _).
  apply H. vm_compute. reflexivity.
Defined.

Lemma AuthOptions_unsupported_version_witness :
  AuthOptions exWorld (Some exV3SpelledOpts) = Err (Errorf "Unable to build AuthOptions").
Proof.
  apply (AuthOptions_unsupported_version exWorld exV3SpelledOpts
           (Cloud.setVerify (Some true) (cloudOf (Some exAuth) "" "" "" "" "v3" ""))).
  - vm_compute. reflexivity.
  - vm_compute. intros Hin.
    repeat (apply elem_of_cons in Hin as [Hin|Hin]; [discriminate Hin|]).
    by apply elem_of_nil in Hin.
Defined.

Lemma identity_version_spelling_witness :
  AuthOptions exWorld (Some exV3SpelledOpts) = Err (Errorf "Unable to build AuthOptions").
Proof.
  apply (identity_version_spelling exWorld exV3SpelledOpts
           (Cloud.setVerify (Some true) (cloudOf (Some exAuth) "" "" "" "" "v3" ""))).
  - vm_compute. reflexivity.
  - vm_compute. reflexivity.
  - right. reflexivity.
Defined.

Lemma GetCloudFromYAML_verify_default_witness :
  is_Some (Cloud.Verify exResolved).
Proof.
  destruct (GetCloudFromYAML_verify_default exWorld (optsOf "mycloud" exClouds None None)
              eq_refl) as (_ & H).
  apply H. vm_compute. reflexivity.
Defined.

Lemma GetCloudFromYAML_regions_first_match_witness :
  GetCloudFromYAML_regions exWorld "west" (Cloud.Regions exRegionsCloud) exRegionsCloud
  = mergeClouds (Some (cloudOf None "" "" "" "public" "" "")) (Some exRegionsCloud).
Proof.
  destruct (GetCloudFromYAML_regions_first_match exWorld "west" exRegionsCloud) as (_ & H).
  apply (H [Cloud.mkRegion "east" (cloudOf None "" "" "" "" "" "")]
           (Cloud.mkRegion "west" (cloudOf None "" "" "" "public" "" ""))
           [Cloud.mkRegion "west" (cloudOf None "" "" "" "internal" "" "")]).
  - repeat constructor. discriminate.
  - reflexivity.
Defined.

Lemma GetCloudFromYAML_secure_only_no_profile_witness :
  GetCloudFromYAML exWorld
    (Some (ClientOpts.setYAMLOpts
             (Some (YAMLOptsBuilder.mk (Ok None) (Ok (Some {[ "only" := exProfiled ]}))
                      (Ok None))) ClientOpts.zero))
  = GetCloudFromYAML exWorld
      (Some (ClientOpts.setYAMLOpts
               (Some (YAMLOptsBuilder.mk (Ok None) (Ok (Some {[ "only" := exProfiled ]}))
                        (Err ErrNotExist))) ClientOpts.zero)).
Proof.
  apply (GetCloudFromYAML_secure_only_no_profile exWorld ClientOpts.zero None).
  - vm_compute. reflexivity.
  - vm_compute. discriminate.
Defined.

Lemma GetCloudFromYAML_not_found_witness :
  GetCloudFromYAML exWorld (Some (optsOf "" exClouds None None))
  = Err (Errorf ("Could not find cloud " ++ "")).
Proof.
  apply (GetCloudFromYAML_not_found exWorld (optsOf "" exClouds None None) exClouds None);
    vm_compute; first [reflexivity | discriminate].
Defined.

Lemma GetCloudFromYAML_secure_load_error_witness :
  GetCloudFromYAML exWorld
    (Some (ClientOpts.setYAMLOpts
             (Some (YAMLOptsBuilder.mk (Ok exClouds) (Err (ErrOther "permission denied"))
                      (Ok None)))
             (optsOf "mycloud" None None None)))
  = Err (ErrorfW "unable to load secure.yaml" (ErrOther "permission denied")).
Proof.
  destruct (GetCloudFromYAML_secure_load_error exWorld
              (ClientOpts.setYAMLOpts
                 (Some (YAMLOptsBuilder.mk (Ok exClouds)
                          (Err (ErrOther "permission denied")) (Ok None)))
                 (optsOf "mycloud" None None None))
              exClouds (Some exMyCloud) (ErrOther "permission denied"))
    as (H & _); [reflexivity|vm_compute; reflexivity|].
  apply H. reflexivity.
Defined.

Lemma NewServiceClient_tls_precedence_witness :
  NewServiceClient_insecure exResolved = Some false.
Proof.
  destruct (NewServiceClient_tls_precedence exWorld ClientOpts.zero exResolved)
    as (_ & _ & _ & _ & H).
  apply (H true). reflexivity.
Defined.

Lemma NewServiceClient_service_unknown_witness :
  NewServiceClient_service (Ok "id") "billing" Cloud.zero
  = Err (Errorf ("unable to create a service client for " ++ "billing")).
Proof.
  apply NewServiceClient_service_unknown. unfold serviceNames. intros Hin.
  repeat (apply elem_of_cons in Hin as [Hin|Hin]; [discriminate Hin|]).
  by apply elem_of_nil in Hin.
Defined.

Lemma NewServiceClient_cloud_name_witness :
  AuthOptions_cloud exWorld (optsOf "mycloud" exClouds None None)
  = Ok (Cloud.setAuthInfo
          (Some (default (default AuthInfo.zero None) (Cloud.AuthInfo exResolved)))
          exResolved).
Proof.
  destruct (NewServiceClient_cloud_name exWorld (optsOf "mycloud" exClouds None None))
    as (_ & H & _).
  apply H. vm_compute. reflexivity.
Defined.
